(** * DualExtrude: a single-extruder G-code file rewritten for both extruders

    A shallow embedding of [DualExtrude.cpp] (version 2.2) and the properties
    of its two passes: [CheckFile], which finds out which toolhead the input
    was sliced for, and [ConvFile], which rewrites the file line by line.

    Conventions of the embedding.
    - A C string is a [string]; [strcmp(a,b) == 0] is [String.eqb], [strlen]
      is [String.length], [Token+1] is [strtail] and [Token[0] == c] is
      [starts_with c Token].
    - A line is what one call of [fgets] delivers: a line of the file when
      that has at most 998 characters before its linefeed, and else a piece
      of one.
    - [double] is IEEE-754 binary64, the kernel's [float]; the arithmetic of
      the program is the arithmetic of [PrimFloat]: every operation rounds
      to nearest, ties to even, with no wider intermediate format and no
      fused multiply-add.
    - [int] values are [Z].  The program never computes with them beyond
      [++cnt]; a conversion by [%d] stores the mathematical value, which is
      what C defines for values that fit an [int].  What [Temp] holds after
      a numeral outside the range of [int] is not modelled: the properties
      that depend on the value of a temperature assume [temps_fit_int].
    - The conversions [sscanf("%lf")] and [printf("%.5f")] belong to the C
      library the program is linked with; they are the two methods of the
      class [Libc], and the general properties are proved for any instance.
      The instance [decimal_libc] (decimal numerals, correctly rounded) runs
      the model on concrete files.
    - [sprintf] assembles lines in strings that have no size: the model
      describes runs whose assembled lines fit [buf[1002]].  A move without
      extrusion parameter always fits; the properties of a move with
      extrusion parameters assume that the line assembled has fewer than
      1002 characters. *)

From Stdlib Require Import ZArith Lia Bool List String Ascii.
From Stdlib Require Import Floats DecimalString.
From Stdlib Require DecimalPos.
Import ListNotations.

Local Open Scope list_scope.
Local Open Scope string_scope.

(** ** C strings *)

Definition LF : ascii := "010"%char.
Definition CR : ascii := "013"%char.
Definition TAB : ascii := "009"%char.
Definition NUL : ascii := "000"%char.

(** The literal ["\012"] of the source. *)
Definition nl : string := String LF EmptyString.

Definition strtail (s : string) : string :=
  match s with
  | EmptyString => EmptyString
  | String _ s' => s'
  end.

(** [Token[0] == c] for a token, which is never empty. *)
Definition starts_with (c : ascii) (s : string) : bool :=
  match s with
  | EmptyString => false
  | String d _ => Ascii.eqb d c
  end.

Fixpoint strchr (s : string) (c : ascii) : bool :=
  match s with
  | EmptyString => false
  | String d s' => Ascii.eqb d c || strchr s' c
  end.

(** The characters of a buffer up to its first NUL: what [strcpy], [strtok]
    and [%s] see of it. *)
Fixpoint c_str (s : string) : string :=
  match s with
  | EmptyString => EmptyString
  | String c s' => if Ascii.eqb c NUL then EmptyString else String c (c_str s')
  end.

(** ** Reading the input: [fgets]

    [fgets(buf, n, in)] stores at most [n-1] characters and stops after a
    linefeed.  [fgets_from n room cur s] is the list of buffers that
    successive calls deliver for the unread input [s], [cur] being what the
    current call has stored so far and [room] how many characters it may
    still store. *)
Fixpoint fgets_from (n room : nat) (cur s : string) : list string :=
  match s with
  | EmptyString =>
      match cur with
      | EmptyString => []
      | _ => [cur]
      end
  | String c s' =>
      let cur' := cur ++ String c EmptyString in
      if Ascii.eqb c LF || Nat.leb room 1
      then cur' :: fgets_from n (n - 1) EmptyString s'
      else fgets_from n (room - 1) cur' s'
  end.

Definition fgets_all (n : nat) (file : string) : list string :=
  map c_str (fgets_from n (n - 1) EmptyString file).

(** ** Tokens: [strtok] with the delimiter set [Tokens] *)

(** [char Tokens[] = " \012"]. *)
Definition Tokens : string := String " "%char (String LF EmptyString).

Definition is_delim (c : ascii) : bool := strchr Tokens c.

Definition flush (cur : string) : list string :=
  match cur with
  | EmptyString => []
  | _ => [cur]
  end.

(** The tokens [strtok(s, Tokens)], [strtok(NULL, Tokens)], ... return until
    the call that returns [NULL]; [cur] is the token being read. *)
Fixpoint strtok_from (cur s : string) : list string :=
  match s with
  | EmptyString => flush cur
  | String c s' =>
      if is_delim c
      then (flush cur ++ strtok_from EmptyString s')%list
      else strtok_from (cur ++ String c EmptyString) s'
  end.

Definition strtok_all (s : string) : list string := strtok_from EmptyString s.

(** ** The command table and [CheckCode] *)

Definition NUMCODES : Z := 7.
Definition NOTOKENS : Z := -1.
Definition M101 : Z := 0.
Definition M102 : Z := 1.
Definition M103 : Z := 2.
Definition M104 : Z := 3.
Definition M108 : Z := 4.
Definition M6 : Z := 5.
Definition G1 : Z := 6.

Definition CODES : list string :=
  ["M101"; "M102"; "M103"; "M104"; "M108"; "M6"; "G1"].

(** [CODES[Code]]. *)
Definition code_name (Code : Z) : string :=
  nth (Z.to_nat Code) CODES EmptyString.

(** The [for] loop of [CheckCode], entered with counter [cnt] and the entries
    of the table from [cnt] on. *)
Fixpoint CheckCode_from (buf : string) (codes : list string) (cnt : Z) : Z :=
  match codes with
  | [] => NOTOKENS
  | c :: codes' =>
      if buf =? c then cnt else CheckCode_from buf codes' (cnt + 1)
  end.

(** [buf] is [None] for the [NULL] that [strtok] returns on a line without
    tokens. *)
Definition CheckCode (buf : option string) : Z :=
  match buf with
  | None => -1
  | Some b => CheckCode_from b CODES 0
  end.

(** ** Integer conversions: [%d] *)

Definition isspace (c : ascii) : bool :=
  match nat_of_ascii c with
  | 9 | 10 | 11 | 12 | 13 | 32 => true
  | _ => false
  end.

Definition digit_of (c : ascii) : option Z :=
  let n := nat_of_ascii c in
  if Nat.leb 48 n && Nat.leb n 57 then Some (Z.of_nat (n - 48)) else None.

Fixpoint skip_space (s : string) : string :=
  match s with
  | String c s' => if isspace c then skip_space s' else s
  | EmptyString => s
  end.

(** The longest run of decimal digits at the head of [s], read after the
    digits that gave [acc]; [seen] tells whether a digit was read. *)
Fixpoint scan_digits (s : string) (acc : Z) (seen : bool) : option Z :=
  match s with
  | EmptyString => if seen then Some acc else None
  | String c s' =>
      match digit_of c with
      | Some d => scan_digits s' (10 * acc + d) true
      | None => if seen then Some acc else None
      end
  end.

(** The directive [%d]: white space, an optional sign, digits.  [None] is a
    matching failure, which leaves the receiving variable as it was. *)
Definition scan_d (s : string) : option Z :=
  match skip_space s with
  | String "-" s' => option_map Z.opp (scan_digits s' 0 false)
  | String "+" s' => scan_digits s' 0 false
  | s' => scan_digits s' 0 false
  end.

(** [sscanf(Token, "S%d", &Temp)]: the new value of [Temp], for a numeral
    whose value fits an [int]. *)
Definition sscanf_S_d (Token : string) (Temp : Z) : Z :=
  match Token with
  | String "S" s' =>
      match scan_d s' with
      | Some v => v
      | None => Temp
      end
  | _ => Temp
  end.

(** [printf("%d", z)]. *)
Definition print_d (z : Z) : string := NilZero.string_of_int (Z.to_int z).

(** ** Floating point *)

(** [floor] of [<math.h>]: the largest integral value not above [x].  A
    finite [x] is [m * 2^e] with [m < 2^53], so the integral value is below
    [2^53] in magnitude and is a [double]. *)
Definition floor (x : float) : float :=
  match Prim2SF x with
  | S754_finite s m e =>
      if (0 <=? e)%Z then x
      else
        match Z.shiftr (if s then Zneg m else Zpos m) (- e) with
        | Z0 => zero
        | q => SF2Prim (binary_normalize prec emax q 0 false)
        end
  | _ => x
  end.

(** The conversions between text and [double] of the C library. *)
Class Libc := {
  (** [sscanf(s, "%lf", &x)]: the value stored in [x], [None] when nothing
      is stored. *)
  sscanf_lf : string -> option float;
  (** The characters [printf("%.5f", x)] writes. *)
  printf_5f : float -> string
}.

(** ** Global state *)

(** [LeftUsed], [RightUsed] (flags, 0 or 1), [FirstE] and [Ratio]. *)
Record globals := mkGlobals {
  LeftUsed : bool;
  RightUsed : bool;
  FirstE : float;
  Ratio : float
}.

(** The assignments of [main] under "Clear varibles". *)
Definition cleared : globals := mkGlobals false false 0%float 1%float.

Definition set_LeftUsed (g : globals) : globals :=
  mkGlobals true (RightUsed g) (FirstE g) (Ratio g).

Definition set_RightUsed (g : globals) : globals :=
  mkGlobals (LeftUsed g) true (FirstE g) (Ratio g).

Definition set_FirstE (g : globals) (e : float) : globals :=
  mkGlobals (LeftUsed g) (RightUsed g) e (Ratio g).

Definition set_Ratio (g : globals) (r : float) : globals :=
  mkGlobals (LeftUsed g) (RightUsed g) (FirstE g) r.

(** What the program prints before it gives up. *)
Inductive failure :=
| BadDiameter (arg : nat)       (* "Filament diameter: %s too big/small!" *)
| ShowUsage
| CantOpenInput
| CantCreateOutput
| BothExtruders                 (* ERROR_BOTH *)
| NoUsedExtruder                (* "Couldn't find a used extruder!" *)
| SpeedTooLong (line : Z)       (* "Speed command too long in line %d" *)
| NoSpeed (line : Z)            (* "No speed in command in line %d" *)
| EParamTooLong (line : Z).     (* "E Parameter too long in line %d" *)

(** What a call leaves behind: the value returned, the globals, the output
    file ([None]: never created) and the failure printed. *)
Record effect := mkEffect {
  returned : Z;
  globals_after : globals;
  output_file : option string;
  printed : option failure
}.

(** ** [ConvFile] *)

(** The toolhead the input does not use. *)
Definition NotUsed_of (rightUsed : bool) : string :=
  if rightUsed then "T1" else "T0".

(** ["%s T1\012%s T0\012"] with [CODES[Code]] twice. *)
Definition both_on_off (Code : Z) : string :=
  code_name Code ++ " T1" ++ nl ++ code_name Code ++ " T0" ++ nl.

(** Cases [M101], [M102], [M103] and [M6]: the contents of [buf] at the
    [fprintf] that follows the [switch].  The [break] taken for the unused
    toolhead leaves the [switch] with [buf] as it was read. *)
Definition conv_on_off (NotUsed : string) (Code : Z) (buf : string)
    (rest : list string) : string :=
  match rest with
  | Token :: _ => if NotUsed =? Token then buf else both_on_off Code
  | [] => both_on_off Code
  end.

(** Case [M104]: the [while] loop; its [break] leaves the loop only. *)
Fixpoint temp_loop (NotUsed : string) (rest : list string) (Temp : Z) : Z :=
  match rest with
  | [] => Temp
  | Token :: rest' =>
      if NotUsed =? Token then Temp
      else temp_loop NotUsed rest'
             (if starts_with "S" Token then sscanf_S_d Token Temp else Temp)
  end.

(** ["%s S%d T1\012%s S%d T0\012"]. *)
Definition both_temp (Code Temp : Z) : string :=
  code_name Code ++ " S" ++ print_d Temp ++ " T1" ++ nl
  ++ code_name Code ++ " S" ++ print_d Temp ++ " T0" ++ nl.

Definition conv_temp (NotUsed : string) (Code : Z) (rest : list string)
    : string :=
  both_temp Code (temp_loop NotUsed rest 0).

(** Case [M108]: the [while] loop, from the contents [Speed] of the speed
    buffer; [inl] is the [return (0)] inside the loop. *)
Fixpoint speed_loop (NotUsed : string) (cnt : Z) (rest : list string)
    (Speed : string) : failure + string :=
  match rest with
  | [] => inr Speed
  | Token :: rest' =>
      if NotUsed =? Token then inr Speed
      else if starts_with "R" Token then
        if Nat.ltb 15 (String.length Token) then inl (SpeedTooLong cnt)
        else speed_loop NotUsed cnt rest' Token
      else speed_loop NotUsed cnt rest' Speed
  end.

(** ["%s %s T1\012%s %s T0\012"]. *)
Definition both_speed (Code : Z) (Speed : string) : string :=
  code_name Code ++ " " ++ Speed ++ " T1" ++ nl
  ++ code_name Code ++ " " ++ Speed ++ " T0" ++ nl.

Definition conv_speed (NotUsed : string) (Code : Z) (cnt : Z)
    (rest : list string) : failure + string :=
  match speed_loop NotUsed cnt rest EmptyString with
  | inl e => inl e
  | inr Speed =>
      if Nat.eqb (String.length Speed) 0 then inl (NoSpeed cnt)
      else inr (both_speed Code Speed)
  end.

(** [floor((x * 100000.0) + 0.5) / 100000.0]. *)
Definition round5 (x : float) : float :=
  (floor ((x * 100000) + 0.5) / 100000)%float.

(** [((CurrentE - FirstE) * Ratio) + FirstE], rounded by [round5]. *)
Definition second_E (ratio firstE CurrentE : float) : float :=
  round5 (((CurrentE - firstE) * ratio) + firstE)%float.

(** ['E' == Token[0] || 'A' == Token[0] || 'B' == Token[0]]. *)
Definition is_E_param (Token : string) : bool :=
  starts_with "E" Token || starts_with "A" Token || starts_with "B" Token.

Section Transform.
Context {libc : Libc}.

(** [CurrentE = 0.0; sscanf(Token+1, "%lf", &CurrentE);]. *)
Definition read_E (Token : string) : float :=
  match sscanf_lf (strtail Token) with
  | Some v => v
  | None => 0%float
  end.

(** What an extrusion parameter appends to [buf], and [FirstE] after it. *)
Definition conv_E_param (rightUsed : bool) (ratio firstE : float)
    (Token : string) : string * float :=
  let CurrentE := read_E Token in
  if (0 <? firstE)%float then
    let NewE := second_E ratio firstE CurrentE in
    if rightUsed
    then (" B" ++ printf_5f NewE ++ " A" ++ strtail Token, firstE)
    else (" A" ++ printf_5f NewE ++ " B" ++ strtail Token, firstE)
  else (" A" ++ strtail Token ++ " B" ++ strtail Token, CurrentE).

(** One turn of the loop over the file: what [fprintf(out,"%s",buf)]
    writes for the line read into [buf], or the failure that ends
    [ConvFile]; and [FirstE] at that point. *)
Inductive line_result :=
| Wrote (text : string) (firstE : float)
| Stopped (e : failure) (firstE : float).

(** Case [G1]: the [while] loop, from the contents of [buf] and the value
    of [FirstE]; [Stopped] is the [return (0)] inside the loop, [Wrote]
    carries [buf] at the end of the loop. *)
Fixpoint g1_loop (rightUsed : bool) (ratio : float) (cnt : Z)
    (rest : list string) (buf : string) (firstE : float) : line_result :=
  match rest with
  | [] => Wrote buf firstE
  | Token :: rest' =>
      if is_E_param Token then
        if Nat.ltb 15 (String.length Token)
        then Stopped (EParamTooLong cnt) firstE
        else
          let '(piece, firstE') := conv_E_param rightUsed ratio firstE Token in
          g1_loop rightUsed ratio cnt rest' (buf ++ piece) firstE'
      else g1_loop rightUsed ratio cnt rest' (buf ++ " " ++ Token) firstE
  end.

Definition conv_line (rightUsed : bool) (ratio : float) (cnt : Z)
    (firstE : float) (buf : string) : line_result :=
  let NotUsed := NotUsed_of rightUsed in
  let toks := strtok_all buf in
  let Code := CheckCode (hd_error toks) in
  let rest := tl toks in
  if (Code =? M101)%Z || (Code =? M102)%Z || (Code =? M103)%Z
     || (Code =? M6)%Z
  then Wrote (conv_on_off NotUsed Code buf rest) firstE
  else if (Code =? M104)%Z
  then Wrote (conv_temp NotUsed Code rest) firstE
  else if (Code =? M108)%Z
  then match conv_speed NotUsed Code cnt rest with
       | inl e => Stopped e firstE
       | inr text => Wrote text firstE
       end
  else if (Code =? G1)%Z
  then match g1_loop rightUsed ratio cnt rest (code_name G1) firstE with
       | Wrote text firstE' => Wrote (text ++ nl) firstE'
       | stopped => stopped
       end
  else Wrote buf firstE.

(** The state of [ConvFile] between two lines: the line counter, [FirstE]
    and what has been written to [out]; [Halted] once it has returned 0. *)
Inductive conv_state :=
| Running (cnt : Z) (firstE : float) (out : string)
| Halted (e : failure) (firstE : float) (out : string).

Fixpoint conv_loop (rightUsed : bool) (ratio : float) (lines : list string)
    (cnt : Z) (firstE : float) (out : string) : conv_state :=
  match lines with
  | [] => Running cnt firstE out
  | buf :: lines' =>
      let cnt := (cnt + 1)%Z in
      match conv_line rightUsed ratio cnt firstE buf with
      | Wrote text firstE' =>
          conv_loop rightUsed ratio lines' cnt firstE' (out ++ text)
      | Stopped e firstE' => Halted e firstE' out
      end
  end.

(** [infile] is the contents of the input file, [None] when it cannot be
    opened; [creatable] tells whether [fopen(outfile,"wb")] succeeds. *)
Definition ConvFile (g : globals) (infile : option string)
    (creatable : bool) : effect :=
  match infile with
  | None => mkEffect 0 g None (Some CantOpenInput)
  | Some file =>
      if creatable then
        match conv_loop (RightUsed g) (Ratio g) (fgets_all 1000 file) 0
                (FirstE g) EmptyString with
        | Running _ firstE out =>
            mkEffect 1 (set_FirstE g firstE) (Some out) None
        | Halted e firstE out =>
            mkEffect 0 (set_FirstE g firstE) (Some out) (Some e)
        end
      else mkEffect 0 g None (Some CantCreateOutput)
  end.
End Transform.

(** ** [CheckFile] *)

(** Case [M104] of [CheckFile]: the [while] loop over the parameters. *)
Fixpoint check_temp_loop (rest : list string) (UsedLeft UsedRight : bool)
    (Temp : Z) : bool * bool * Z :=
  match rest with
  | [] => (UsedLeft, UsedRight, Temp)
  | Token :: rest' =>
      check_temp_loop rest'
        (if "T1" =? Token then true else UsedLeft)
        (if "T0" =? Token then true else UsedRight)
        (if starts_with "S" Token then sscanf_S_d Token Temp else Temp)
  end.

(** One turn of the loop of [CheckFile]: the globals after the line, or
    [None] where it prints [ERROR_BOTH] and returns 0. *)
Definition check_line (g : globals) (buf : string) : option globals :=
  let toks := strtok_all buf in
  let Code := CheckCode (hd_error toks) in
  let rest := tl toks in
  if (Code =? M101)%Z || (Code =? M102)%Z then
    match rest with
    | Token :: _ =>
        if "T0" =? Token then
          if LeftUsed g then None else Some (set_RightUsed g)
        else if "T1" =? Token then
          if RightUsed g then None else Some (set_LeftUsed g)
        else Some g
    | [] => Some g
    end
  else if (Code =? M104)%Z then
    let '(UsedLeft, UsedRight, Temp) := check_temp_loop rest false false 0 in
    if UsedRight && (0 <? Temp)%Z then
      if LeftUsed g then None else Some (set_RightUsed g)
    else if UsedLeft && (0 <? Temp)%Z then
      if RightUsed g then None else Some (set_LeftUsed g)
    else Some g
  else Some g.

(** The loop of [CheckFile]: the globals when it ends, and [false] when it
    ended by printing [ERROR_BOTH]. *)
Fixpoint check_loop (g : globals) (lines : list string) : globals * bool :=
  match lines with
  | [] => (g, true)
  | buf :: lines' =>
      match check_line g buf with
      | Some g' => check_loop g' lines'
      | None => (g, false)
      end
  end.

(** The value returned, the globals and what was printed on failure. *)
Definition CheckFile (g : globals) (infile : option string)
    : Z * globals * option failure :=
  match infile with
  | None => (0%Z, g, Some CantOpenInput)
  | Some file =>
      match check_loop g (fgets_all 1024 file) with
      | (g', false) => (0%Z, g', Some BothExtruders)
      | (g', true) =>
          if negb (RightUsed g') && negb (LeftUsed g')
          then (0%Z, g', Some NoUsedExtruder)
          else (1%Z, g', None)
      end
  end.

(** ** [main] *)

(** The command line: [argc == 3], [argc == 5] with the values that
    [sscanf] stored in [D1] and [D2], or any other [argc]. *)
Inductive cmdline :=
| Files
| FilesDiameters (D1 D2 : float)
| OtherArgs.

(** The constants [1.5] and [2.2] as [double]s. *)
Definition min_diameter : float := 1.5%float.
Definition max_diameter : float := 0x1.199999999999ap+1%float.

(** [D < 1.5 || D > 2.2]. *)
Definition too_big_small (D : float) : bool :=
  ((D <? min_diameter) || (max_diameter <? D))%float.

(** [((D1 / 2) * (D1 / 2)) / ((D2 / 2) * (D2 / 2))]. *)
Definition diameter_ratio (D1 D2 : float) : float :=
  (((D1 / 2) * (D1 / 2)) / ((D2 / 2) * (D2 / 2)))%float.

(** The [switch (argc)] of [main]: the globals after it, or the failure
    with which [main] returns 0. *)
Definition check_args (g : globals) (args : cmdline) : failure + globals :=
  match args with
  | Files => inr g
  | FilesDiameters D1 D2 =>
      if too_big_small D1 then inl (BadDiameter 2)
      else if too_big_small D2 then inl (BadDiameter 4)
      else inr (set_Ratio g (diameter_ratio D1 D2))
  | OtherArgs => inl ShowUsage
  end.

Section Main.
Context {libc : Libc}.

(** The input file is opened and read twice, by [CheckFile] and by
    [ConvFile]; [infile] is what both find. *)
Definition main (args : cmdline) (infile : option string)
    (creatable : bool) : effect :=
  let g := cleared in
  match check_args g args with
  | inl e => mkEffect 0 g None (Some e)
  | inr g =>
      match CheckFile g infile with
      | (1%Z, g, _) =>
          let r := ConvFile g infile creatable in
          if (returned r =? 0)%Z
          then mkEffect (-1) (globals_after r) (output_file r) (printed r)
          else mkEffect 0 (globals_after r) (output_file r) (printed r)
      | (_, g, e) => mkEffect (-1) g None e
      end
  end.
End Main.

(** ** A C library for running the model

    Decimal numerals, with an optional exponent, converted with correct
    rounding (to nearest, ties to even) in both directions. *)

Fixpoint scan_dec_digits (s : string) (acc : Z) (n : nat) : Z * nat * string :=
  match s with
  | String c s' =>
      match digit_of c with
      | Some d => scan_dec_digits s' (10 * acc + d) (S n)
      | None => (acc, n, s)
      end
  | EmptyString => (acc, n, s)
  end.

(** The [double] nearest to [m * 10^e10], negated when [neg]. *)
Definition dec_to_SF (neg : bool) (m e10 : Z) : spec_float :=
  match m with
  | Zpos p =>
      if (0 <=? e10)%Z
      then binary_round prec emax neg (Z.to_pos (Zpos p * 10 ^ e10)) 0
      else
        let '(q, e, l) :=
          SFdiv_core_binary prec emax (Zpos p) 0 (10 ^ (- e10)) 0 in
        binary_round_aux prec emax neg q e l
  | _ => S754_zero neg
  end.

Definition scan_sign (s : string) : bool * string :=
  match s with
  | String "-" t => (true, t)
  | String "+" t => (false, t)
  | _ => (false, s)
  end.

(** The directive [%lf]: white space, a sign, digits with at most one point,
    an exponent.  A numeral cut short (no digit, or an [e] without digits)
    is a matching failure. *)
Definition scan_lf (s : string) : option float :=
  let '(neg, s1) := scan_sign (skip_space s) in
  let '(mi, ni, s2) := scan_dec_digits s1 0 0 in
  let '(m, nf, s3) :=
    match s2 with
    | String "." t => scan_dec_digits t mi 0
    | _ => (mi, 0%nat, s2)
    end in
  if Nat.eqb (ni + nf) 0 then None
  else
    if starts_with "e" s3 || starts_with "E" s3 then
      let '(eneg, t) := scan_sign (strtail s3) in
      let '(ev, ne, _) := scan_dec_digits t 0 0 in
      if Nat.eqb ne 0 then None
      else Some (SF2Prim (dec_to_SF neg m
                   ((if eneg then - ev else ev) - Z.of_nat nf)))
    else Some (SF2Prim (dec_to_SF neg m (- Z.of_nat nf))).

(** [a / d] rounded to the nearest integer, ties to even. *)
Definition round_half_even (a d : Z) : Z :=
  let q := (a / d)%Z in
  match (2 * (a mod d) ?= d)%Z with
  | Lt => q
  | Gt => (q + 1)%Z
  | Eq => if Z.even q then q else (q + 1)%Z
  end.

Fixpoint zeros (n : nat) : string :=
  match n with
  | O => EmptyString
  | S n' => String "0" (zeros n')
  end.

(** [N] hundred-thousandths in fixed notation. *)
Definition fixed5 (neg : bool) (N : Z) : string :=
  let frac := print_d (N mod 100000) in
  (if neg then "-" else EmptyString)
  ++ print_d (N / 100000) ++ "." ++ zeros (5 - String.length frac) ++ frac.

Definition print_5f (x : float) : string :=
  match Prim2SF x with
  | S754_nan => "nan"
  | S754_infinity s => if s then "-inf" else "inf"
  | S754_zero s => fixed5 s 0
  | S754_finite s m e =>
      fixed5 s (if (0 <=? e)%Z then Zpos m * 2 ^ e * 100000
                else round_half_even (Zpos m * 100000) (2 ^ (- e)))%Z
  end.

Definition decimal_libc : Libc :=
  {| sscanf_lf := scan_lf; printf_5f := print_5f |}.

(** ** The words of the specification

    Definitions that follow the specification, to compare the program
    with. *)

(** Fields of a line: it is cut at every space and at every linefeed, and
    nowhere else; empty pieces are no fields. *)
Definition space_or_linefeed (c : ascii) : bool :=
  Ascii.eqb c " " || Ascii.eqb c LF.

Fixpoint split_at (sep : ascii -> bool) (s : string) : list string :=
  match s with
  | EmptyString => [EmptyString]
  | String c s' =>
      if sep c then EmptyString :: split_at sep s'
      else
        match split_at sep s' with
        | f :: fs => String c f :: fs
        | [] => [String c EmptyString]
        end
  end.

Definition nonempty (s : string) : bool :=
  match s with
  | EmptyString => false
  | _ => true
  end.

Definition fields (s : string) : list string :=
  filter nonempty (split_at space_or_linefeed s).

(** The commands that switch an extruder and the tool change. *)
Definition on_off_verbs : list string := ["M101"; "M102"; "M103"; "M6"].

(** The integer a temperature parameter carries: the token begins with [S]
    and an integer follows. *)
Definition S_value (Token : string) : option Z :=
  if starts_with "S" Token then scan_d (strtail Token) else None.

Definition S_values (rest : list string) : list Z :=
  flat_map (fun Token => match S_value Token with
                         | Some v => [v]
                         | None => []
                         end) rest.

(** The temperature of the first token that begins with [S]; 0 when there
    is none. *)
Definition first_S_temp (rest : list string) : Z :=
  match filter (starts_with "S") rest with
  | Token :: _ => match S_value Token with
                  | Some v => v
                  | None => 0
                  end
  | [] => 0
  end%Z.

(** The temperature of the last token that carries one; 0 when there is
    none. *)
Definition last_S_temp (rest : list string) : Z := last (S_values rest) 0%Z.

(** The lines on which [ConvFile] gives up, and the message it prints with
    the line number: a speed parameter of more than 15 characters that no
    parameter naming the unused toolhead precedes, a speed command without
    any speed parameter, a move with an extrusion parameter of more than 15
    characters. *)
Inductive format_fault (rightUsed : bool)
    : list string -> (Z -> failure) -> Prop :=
| speed_too_long before Token after :
    ~ In (NotUsed_of rightUsed) before ->
    starts_with "R" Token = true ->
    (15 < String.length Token)%nat ->
    format_fault rightUsed ("M108" :: before ++ Token :: after)%list
      SpeedTooLong
| speed_missing rest :
    (forall Token, In Token rest -> starts_with "R" Token = false) ->
    format_fault rightUsed ("M108" :: rest) NoSpeed
| e_param_too_long before Token after :
    is_E_param Token = true ->
    (15 < String.length Token)%nat ->
    format_fault rightUsed ("G1" :: before ++ Token :: after)%list
      EParamTooLong.

(** The detector as a machine with one register, the toolhead claimed so
    far. *)
Inductive toolhead := Left | Right.

(** The one claim that [CheckFile] takes from a line: [T0] after [M101] or
    [M102] claims the right toolhead, [T1] the left one; [M104] with a
    positive temperature claims the right one when [T0] is among its
    parameters, and the left one when [T1] is and [T0] is not.  (The
    specification lets such a line claim both: [claims_of] below.) *)
Definition claim_of (buf : string) : option toolhead :=
  match strtok_all buf with
  | verb :: rest =>
      if (verb =? "M101") || (verb =? "M102") then
        match rest with
        | Token :: _ =>
            if "T0" =? Token then Some Right
            else if "T1" =? Token then Some Left
            else None
        | [] => None
        end
      else if verb =? "M104" then
        if existsb (String.eqb "T0") rest && (0 <? last_S_temp rest)%Z
        then Some Right
        else if existsb (String.eqb "T1") rest && (0 <? last_S_temp rest)%Z
        then Some Left
        else None
      else None
  | [] => None
  end.

Inductive detection := Conflict | NoneUsed | RightActive | LeftActive.

Definition same_toolhead (a b : toolhead) : bool :=
  match a, b with
  | Left, Left | Right, Right => true
  | _, _ => false
  end.

Fixpoint detect (claimed : option toolhead) (lines : list string)
    : detection :=
  match lines with
  | [] =>
      match claimed with
      | None => NoneUsed
      | Some Right => RightActive
      | Some Left => LeftActive
      end
  | buf :: lines' =>
      match claim_of buf, claimed with
      | None, _ => detect claimed lines'
      | Some h, None => detect (Some h) lines'
      | Some h, Some h' =>
          if same_toolhead h h' then detect claimed lines' else Conflict
      end
  end.

(** The flags that stand for the register of the machine. *)
Definition flags_are (claimed : option toolhead) (g : globals) : Prop :=
  LeftUsed g = match claimed with Some Left => true | _ => false end /\
  RightUsed g = match claimed with Some Right => true | _ => false end.

(** ** Further notions used to state properties *)

(** What the moves append for parameters that are copied: each token after
    a space, as [sprintf(buf+strlen(buf)," %s",Token)] leaves them. *)
Fixpoint join_tokens (toks : list string) : string :=
  match toks with
  | [] => EmptyString
  | Token :: toks' => " " ++ Token ++ join_tokens toks'
  end.

(** The contents of a file made of the given pieces. *)
Fixpoint concat_lines (lines : list string) : string :=
  match lines with
  | [] => EmptyString
  | buf :: lines' => buf ++ concat_lines lines'
  end.

(** A delimiter of [Tokens] occurs in [s]. *)
Fixpoint has_delim (s : string) : bool :=
  match s with
  | EmptyString => false
  | String c s' => is_delim c || has_delim s'
  end.

(** The last speed parameter of a line; empty when there is none. *)
Definition last_speed (rest : list string) : string :=
  last (filter (starts_with "R") rest) EmptyString.

(** What has gone to the output when [ConvFile] is in the given state. *)
Definition written (st : conv_state) : string :=
  match st with
  | Running _ _ out => out
  | Halted _ _ out => out
  end.

(** The line claims the given toolhead. *)
Definition claims (h : toolhead) (buf : string) : bool :=
  match claim_of buf with
  | Some h' => same_toolhead h h'
  | None => false
  end.

(** The failures of the command line, with which [main] returns 0. *)
Definition argument_failure (e : failure) : bool :=
  match e with
  | BadDiameter _ | ShowUsage => true
  | _ => false
  end.

(** [s] is empty or ends with a linefeed: the next character read starts a
    line. *)
Fixpoint at_line_start (s : string) : bool :=
  match s with
  | EmptyString => true
  | String c EmptyString => Ascii.eqb c LF
  | String _ s' => at_line_start s'
  end.

(** The characters the joined tokens take: one space and the token, for
    each. *)
Fixpoint joined_length (toks : list string) : nat :=
  match toks with
  | [] => 0
  | Token :: toks' => S (String.length Token) + joined_length toks'
  end.

(** ** The range of [int] *)

(** [INT_MIN] and [INT_MAX] of [<limits.h>], for an [int] of 32 bits. *)
Definition INT_MIN : Z := (-2147483648)%Z.
Definition INT_MAX : Z := 2147483647%Z.

Definition fits_int (v : Z) : bool := ((INT_MIN <=? v) && (v <=? INT_MAX))%Z.

(** Every integer that [S%d] reads from the parameters of a line is one
    that [int Temp] holds. *)
Definition temps_fit_int (rest : list string) : bool :=
  forallb fits_int (S_values rest).

(** The same for a line as [fgets] delivers it: the parameters of a
    temperature command are the ones converted with [%d]. *)
Definition line_temps_fit (buf : string) : bool :=
  match strtok_all buf with
  | verb :: rest => if verb =? "M104" then temps_fit_int rest else true
  | [] => true
  end.

(** ** The detector in the words of the specification

    A temperature line claims the right toolhead when a positive temperature
    accompanies [T0] and, independently, the left one when a positive
    temperature accompanies [T1]: it can make two claims. *)
Definition claims_of (buf : string) : list toolhead :=
  match strtok_all buf with
  | verb :: rest =>
      if (verb =? "M101") || (verb =? "M102") then
        match rest with
        | Token :: _ =>
            if "T0" =? Token then [Right]
            else if "T1" =? Token then [Left]
            else []
        | [] => []
        end
      else if verb =? "M104" then
        ((if existsb (String.eqb "T0") rest && (0 <? last_S_temp rest)%Z
          then [Right] else [])
         ++ (if existsb (String.eqb "T1") rest && (0 <? last_S_temp rest)%Z
             then [Left] else []))%list
      else []
  | [] => []
  end.

(** The register after the claims of one line; [None] is the
    ConflictError: a toolhead is claimed while the other already is. *)
Fixpoint claim_all (claimed : option toolhead) (cs : list toolhead)
    : option (option toolhead) :=
  match cs with
  | [] => Some claimed
  | h :: cs' =>
      match claimed with
      | None => claim_all (Some h) cs'
      | Some h' =>
          if same_toolhead h h' then claim_all claimed cs' else None
      end
  end.

Fixpoint detect_independent (claimed : option toolhead)
    (lines : list string) : detection :=
  match lines with
  | [] =>
      match claimed with
      | None => NoneUsed
      | Some Right => RightActive
      | Some Left => LeftActive
      end
  | buf :: lines' =>
      match claim_all claimed (claims_of buf) with
      | Some claimed' => detect_independent claimed' lines'
      | None => Conflict
      end
  end.

(** * Properties *)

(** ** Strings and tokens *)

Lemma append_nil_r (s : string) : s ++ EmptyString = s.
Proof. induction s; simpl; congruence. Qed.

Lemma append_assoc (a b c : string) : (a ++ b) ++ c = a ++ (b ++ c).
Proof. induction a; simpl; congruence. Qed.

Lemma is_delim_spec (c : ascii) : is_delim c = space_or_linefeed c.
Proof.
  unfold is_delim, space_or_linefeed, Tokens; cbn [strchr].
  rewrite orb_false_r, (Ascii.eqb_sym " " c), (Ascii.eqb_sym LF c).
  reflexivity.
Qed.

Lemma flush_filter (cur : string) : flush cur = filter nonempty [cur].
Proof. destruct cur; reflexivity. Qed.

Lemma split_at_cons (sep : ascii -> bool) (s : string) :
  exists f fs, split_at sep s = f :: fs.
Proof.
  induction s as [|c s IH]; simpl; eauto.
  destruct (sep c); eauto.
  destruct IH as (f & fs & ->); eauto.
Qed.

(** [strtok] resumed inside a token: the token read so far is put in front
    of the first piece. *)
Lemma strtok_from_split (s cur : string) :
  strtok_from cur s =
  match split_at space_or_linefeed s with
  | f :: fs => filter nonempty ((cur ++ f) :: fs)
  | [] => flush cur
  end.
Proof.
  revert cur; induction s as [|c s IH]; intros cur.
  - cbn [split_at strtok_from]. rewrite append_nil_r. apply flush_filter.
  - cbn [strtok_from split_at]. rewrite is_delim_spec.
    destruct (space_or_linefeed c).
    + rewrite append_nil_r, IH.
      destruct (split_at_cons space_or_linefeed s) as (f & fs & ->).
      destruct cur; reflexivity.
    + rewrite IH.
      destruct (split_at_cons space_or_linefeed s) as (f & fs & ->).
      rewrite append_assoc. reflexivity.
Qed.

Lemma strtok_all_fields (s : string) : strtok_all s = fields s.
Proof.
  unfold strtok_all, fields. rewrite strtok_from_split.
  destruct (split_at_cons space_or_linefeed s) as (f & fs & ->).
  reflexivity.
Qed.

(** ** [CheckCode] *)

Lemma CODES_length : Z.of_nat (List.length CODES) = NUMCODES.
Proof. reflexivity. Qed.

Lemma CheckCode_unknown (t : option string) :
  (forall verb, In verb CODES -> t <> Some verb) ->
  CheckCode t = NOTOKENS.
Proof.
  intros H. destruct t as [b|]; [|reflexivity].
  unfold CheckCode, CODES, CheckCode_from.
  repeat match goal with
  | |- context [String.eqb b ?c] =>
      destruct (String.eqb_spec b c) as [->|_];
      [exfalso; apply (H c); [simpl; tauto | reflexivity]|]
  end.
  reflexivity.
Qed.

Section TransformFacts.
Context {libc : Libc}.

Lemma conv_line_unknown rightUsed ratio cnt firstE buf :
  CheckCode (hd_error (strtok_all buf)) = NOTOKENS ->
  conv_line rightUsed ratio cnt firstE buf = Wrote buf firstE.
Proof. unfold conv_line. intros ->. reflexivity. Qed.

End TransformFacts.

(** C10.  Both passes cut a line with [strtok] and the set [Tokens]: at
    spaces and linefeeds and nowhere else.  A tab or a carriage return
    stays in its token, so the line [M101] ended by CR LF has the first
    token [M101 CR], which is no command: [ConvFile] copies the line and
    [CheckFile] passes over it. *)
Theorem tokens_cut_at_space_and_linefeed_only :
  (forall buf, strtok_all buf = fields buf) /\
  space_or_linefeed TAB = false /\
  space_or_linefeed CR = false /\
  strtok_all ("M101" ++ String CR nl) = ["M101" ++ String CR EmptyString] /\
  CheckCode (Some ("M101" ++ String CR EmptyString)) = NOTOKENS /\
  (forall (libc : Libc) rightUsed ratio cnt firstE,
      conv_line rightUsed ratio cnt firstE ("M101" ++ String CR nl)
      = Wrote ("M101" ++ String CR nl) firstE) /\
  (forall g, check_line g ("M101" ++ String CR nl) = Some g).
Proof.
  split; [exact strtok_all_fields|].
  repeat split; try reflexivity.
Qed.

(** ** Lines and [fgets] *)

Lemma c_str_no_NUL (s : string) : strchr s NUL = false -> c_str s = s.
Proof.
  induction s as [|c s IH]; cbn [strchr c_str]; [reflexivity|].
  intros H. apply orb_false_elim in H. destruct H as [Hc Hs].
  rewrite Hc, (IH Hs). reflexivity.
Qed.

(** A line without linefeed inside, followed by its linefeed, that fits the
    buffer is delivered by one call of [fgets]. *)
Lemma fgets_from_line (n : nat) (line rest cur : string) (room : nat) :
  strchr line LF = false ->
  (String.length line < room)%nat ->
  fgets_from n room cur (line ++ String LF rest)
  = (cur ++ line ++ nl) :: fgets_from n (n - 1) EmptyString rest.
Proof.
  revert cur room; induction line as [|c line IH]; intros cur room Hlf Hlen.
  - cbn [append fgets_from]. rewrite Ascii.eqb_refl. reflexivity.
  - cbn [strchr] in Hlf. apply orb_false_elim in Hlf.
    destruct Hlf as [Hc Hline]. cbn [String.length] in Hlen.
    cbn [append fgets_from]. rewrite Hc.
    destruct (Nat.leb_spec room 1) as [Hle|_]; [lia|]. cbn [orb].
    rewrite IH by (assumption || lia).
    rewrite append_assoc. reflexivity.
Qed.

Lemma fgets_all_line (n : nat) (line rest : string) :
  strchr line LF = false ->
  strchr line NUL = false ->
  (String.length line + 2 <= n)%nat ->
  fgets_all n (line ++ String LF rest) = (line ++ nl) :: fgets_all n rest.
Proof.
  intros Hlf Hnul Hlen. unfold fgets_all.
  rewrite fgets_from_line by (assumption || lia).
  cbn [map append]. f_equal. apply c_str_no_NUL.
  clear Hlf Hlen. induction line as [|c line IH]; [reflexivity|].
  cbn [strchr] in Hnul. apply orb_false_elim in Hnul.
  destruct Hnul as [Hc Hline]. cbn [append strchr]. rewrite Hc.
  apply IH. exact Hline.
Qed.

Section FileLines.
Context {libc : Libc}.

(** The same for a line of the file: when the unread input begins with an
    unclassified line of at most 998 characters and its linefeed, the line
    goes to the output and the run goes on with the rest of the file. *)
Lemma unclassified_line_of_file_is_copied rightUsed ratio cnt firstE line rest
    out :
  strchr line LF = false ->
  strchr line NUL = false ->
  (String.length line + 2 <= 1000)%nat ->
  (forall verb, In verb CODES ->
                hd_error (strtok_all (line ++ nl)) <> Some verb) ->
  conv_loop rightUsed ratio (fgets_all 1000 (line ++ String LF rest)) cnt
    firstE out
  = conv_loop rightUsed ratio (fgets_all 1000 rest) (cnt + 1) firstE
      (out ++ line ++ nl).
Proof.
  intros Hlf Hnul Hlen H. rewrite (fgets_all_line _ _ _ Hlf Hnul Hlen).
  cbn [conv_loop].
  rewrite (conv_line_unknown _ _ _ _ _ (CheckCode_unknown _ H)).
  reflexivity.
Qed.
End FileLines.

(** ** On/off and tool change commands *)

Section OnOffFacts.
Context {libc : Libc}.

(** What [ConvFile] writes for an on/off or tool change line: the line
    itself when its first parameter names the unused toolhead, and else
    the command for toolhead 1 and the command for toolhead 0. *)
Lemma on_off_line_written rightUsed ratio cnt firstE buf verb rest :
  strtok_all buf = verb :: rest ->
  In verb on_off_verbs ->
  conv_line rightUsed ratio cnt firstE buf =
  Wrote (if match rest with
            | Token :: _ => NotUsed_of rightUsed =? Token
            | [] => false
            end
         then buf
         else verb ++ " T1" ++ nl ++ verb ++ " T0" ++ nl) firstE.
Proof.
  intros Htok Hv. unfold conv_line. rewrite Htok.
  simpl in Hv; decompose [or] Hv; subst; try contradiction;
    destruct rest as [|Token rest]; cbn; try reflexivity;
    destruct (NotUsed_of rightUsed =? Token); reflexivity.
Qed.

(** C1.  The comment at the [break] says that a command for the unused
    toolhead is dropped; the [break] leaves the [switch] and the [fprintf]
    after it writes the line as it was read.  With the right toolhead in
    use (unused: [T1]) the lines [M101 T1], [M102 T1], [M103 T1] and
    [M6 T1] are copied to the output, and so is [M103 T0] when the left
    one is in use. *)
Theorem on_off_line_for_unused_toolhead_is_written ratio cnt firstE :
  conv_line true ratio cnt firstE ("M101 T1" ++ nl)
  = Wrote ("M101 T1" ++ nl) firstE /\
  conv_line true ratio cnt firstE ("M102 T1" ++ nl)
  = Wrote ("M102 T1" ++ nl) firstE /\
  conv_line true ratio cnt firstE ("M103 T1" ++ nl)
  = Wrote ("M103 T1" ++ nl) firstE /\
  conv_line true ratio cnt firstE ("M6 T1" ++ nl)
  = Wrote ("M6 T1" ++ nl) firstE /\
  conv_line false ratio cnt firstE ("M103 T0" ++ nl)
  = Wrote ("M103 T0" ++ nl) firstE.
Proof. repeat split; reflexivity. Qed.

(** ** Temperature commands *)

Lemma conv_line_M104 rightUsed ratio cnt firstE buf rest :
  strtok_all buf = "M104" :: rest ->
  conv_line rightUsed ratio cnt firstE buf =
  Wrote (both_temp M104 (temp_loop (NotUsed_of rightUsed) rest 0)) firstE.
Proof. intros Htok. unfold conv_line. rewrite Htok. reflexivity. Qed.

Lemma conv_line_M108 rightUsed ratio cnt firstE buf rest :
  strtok_all buf = "M108" :: rest ->
  conv_line rightUsed ratio cnt firstE buf =
  match conv_speed (NotUsed_of rightUsed) M108 cnt rest with
  | inl e => Stopped e firstE
  | inr text => Wrote text firstE
  end.
Proof. intros Htok. unfold conv_line. rewrite Htok. reflexivity. Qed.

(** C2.  In the cases [M104] and [M108] the [break] for the unused toolhead
    leaves the [while] loop, not the line: the command is then written for
    both toolheads with what was read before the designator, and a speed
    command whose designator comes first ends the run.  With the right
    toolhead in use: *)
Theorem temp_and_speed_for_unused_toolhead_are_written ratio cnt firstE :
  conv_line true ratio cnt firstE ("M104 S200 T1" ++ nl)
  = Wrote ("M104 S200 T1" ++ nl ++ "M104 S200 T0" ++ nl) firstE /\
  conv_line true ratio cnt firstE ("M104 T1 S200" ++ nl)
  = Wrote ("M104 S0 T1" ++ nl ++ "M104 S0 T0" ++ nl) firstE /\
  conv_line true ratio cnt firstE ("M108 R2.0 T1" ++ nl)
  = Wrote ("M108 R2.0 T1" ++ nl ++ "M108 R2.0 T0" ++ nl) firstE /\
  conv_line true ratio cnt firstE ("M108 T1 R2.0" ++ nl)
  = Stopped (NoSpeed cnt) firstE.
Proof. repeat split; reflexivity. Qed.
End OnOffFacts.

Lemma last_cons {A} (l : list A) (a d : A) : last (a :: l) d = last l a.
Proof.
  revert a d; induction l as [|b l IH]; intros a d; [reflexivity|].
  change (last (a :: b :: l) d) with (last (b :: l) d).
  rewrite (IH b d), (IH b a). reflexivity.
Qed.

Lemma sscanf_S_d_value (Token : string) (Temp : Z) :
  (if starts_with "S" Token then sscanf_S_d Token Temp else Temp)
  = match S_value Token with
    | Some v => v
    | None => Temp
    end.
Proof.
  unfold S_value. destruct Token as [|c s]; [reflexivity|].
  cbn [starts_with]. destruct (Ascii.eqb_spec c "S") as [->|]; reflexivity.
Qed.

(** Without the unused designator the loop reads every parameter, and each
    temperature read replaces the one before. *)
Lemma temp_loop_last (NotUsed : string) (rest : list string) (Temp : Z) :
  ~ In NotUsed rest ->
  temp_loop NotUsed rest Temp = last (S_values rest) Temp.
Proof.
  revert Temp; induction rest as [|Token rest IH]; intros Temp Hnot;
    [reflexivity|].
  cbn [temp_loop].
  destruct (String.eqb_spec NotUsed Token) as [E|_];
    [exfalso; apply Hnot; left; symmetry; exact E|].
  rewrite IH by (intros H; apply Hnot; right; exact H).
  rewrite sscanf_S_d_value. unfold S_values. cbn [flat_map].
  destruct (S_value Token) as [v|]; [|reflexivity].
  cbn [app]. symmetry. apply last_cons.
Qed.

Section TempFacts.
Context {libc : Libc}.

End TempFacts.



(** ** Speed commands, moves and the failures of [ConvFile] *)

Lemma NotUsed_not_speed rightUsed Token :
  starts_with "R" Token = true -> (NotUsed_of rightUsed =? Token) = false.
Proof.
  intros H. destruct (String.eqb_spec (NotUsed_of rightUsed) Token) as [<-|];
    [|reflexivity].
  destruct rightUsed; discriminate H.
Qed.

Lemma speed_loop_too_long rightUsed cnt before Token after Speed :
  ~ In (NotUsed_of rightUsed) before ->
  starts_with "R" Token = true ->
  (15 < String.length Token)%nat ->
  speed_loop (NotUsed_of rightUsed) cnt (before ++ Token :: after) Speed
  = inl (SpeedTooLong cnt).
Proof.
  intros Hnot HR Hlen. revert Speed.
  induction before as [|t before IH]; intros Speed; cbn [app speed_loop].
  - rewrite (NotUsed_not_speed _ _ HR), HR.
    apply Nat.ltb_lt in Hlen. rewrite Hlen. reflexivity.
  - destruct (String.eqb_spec (NotUsed_of rightUsed) t) as [E|_];
      [exfalso; apply Hnot; left; symmetry; exact E|].
    assert (Hnot' : ~ In (NotUsed_of rightUsed) before)
      by (intros H; apply Hnot; right; exact H).
    destruct (starts_with "R" t); [|apply IH; exact Hnot'].
    destruct (Nat.ltb 15 (String.length t)); [reflexivity|].
    apply IH; exact Hnot'.
Qed.

Lemma speed_loop_no_speed NotUsed cnt rest Speed :
  (forall Token, In Token rest -> starts_with "R" Token = false) ->
  speed_loop NotUsed cnt rest Speed = inr Speed.
Proof.
  induction rest as [|t rest IH]; intros H; [reflexivity|].
  cbn [speed_loop]. destruct (NotUsed =? t); [reflexivity|].
  rewrite (H t) by (left; reflexivity).
  apply IH. intros Token Hin. apply H. right. exact Hin.
Qed.

Section RunFacts.
Context {libc : Libc}.

Lemma g1_loop_app rightUsed ratio cnt l1 l2 buf firstE :
  g1_loop rightUsed ratio cnt (l1 ++ l2) buf firstE =
  match g1_loop rightUsed ratio cnt l1 buf firstE with
  | Wrote text firstE' => g1_loop rightUsed ratio cnt l2 text firstE'
  | stopped => stopped
  end.
Proof.
  revert buf firstE; induction l1 as [|t l1 IH]; intros buf firstE;
    [reflexivity|].
  cbn [app g1_loop]. destruct (is_E_param t); [|apply IH].
  destruct (Nat.ltb 15 (String.length t)); [reflexivity|].
  destruct (conv_E_param rightUsed ratio firstE t) as [piece firstE'].
  apply IH.
Qed.

Lemma g1_loop_too_long rightUsed ratio cnt before Token after buf firstE :
  is_E_param Token = true ->
  (15 < String.length Token)%nat ->
  exists firstE',
    g1_loop rightUsed ratio cnt (before ++ Token :: after) buf firstE
    = Stopped (EParamTooLong cnt) firstE'.
Proof.
  intros HE Hlen. apply Nat.ltb_lt in Hlen. revert buf firstE.
  induction before as [|t before IH]; intros buf firstE; cbn [app g1_loop].
  - rewrite HE, Hlen. eauto.
  - destruct (is_E_param t); [|apply IH].
    destruct (Nat.ltb 15 (String.length t)); [eauto|].
    destruct (conv_E_param rightUsed ratio firstE t) as [piece firstE'].
    apply IH.
Qed.

Lemma conv_line_G1 rightUsed ratio cnt firstE buf rest :
  strtok_all buf = "G1" :: rest ->
  conv_line rightUsed ratio cnt firstE buf =
  match g1_loop rightUsed ratio cnt rest "G1" firstE with
  | Wrote text firstE' => Wrote (text ++ nl) firstE'
  | stopped => stopped
  end.
Proof. intros Htok. unfold conv_line. rewrite Htok. reflexivity. Qed.

(** A faulty line ends the run at that line, with its number. *)
Lemma format_fault_stops_line rightUsed ratio cnt firstE buf mk :
  format_fault rightUsed (strtok_all buf) mk ->
  exists firstE',
    conv_line rightUsed ratio cnt firstE buf = Stopped (mk cnt) firstE'.
Proof.
  intros H. remember (strtok_all buf) as toks eqn:Htok. symmetry in Htok.
  destruct H as [before Token after Hnot HR Hlen | rest Hno
                | before Token after HE Hlen].
  - rewrite (conv_line_M108 _ _ _ _ _ _ Htok). unfold conv_speed.
    rewrite (speed_loop_too_long _ _ _ _ _ _ Hnot HR Hlen). eauto.
  - rewrite (conv_line_M108 _ _ _ _ _ _ Htok). unfold conv_speed.
    rewrite (speed_loop_no_speed _ _ _ _ Hno). cbn. eauto.
  - rewrite (conv_line_G1 _ _ _ _ _ _ Htok).
    destruct (g1_loop_too_long rightUsed ratio cnt before Token after
                "G1" firstE HE Hlen) as [firstE' ->].
    eauto.
Qed.

Lemma conv_loop_app rightUsed ratio l1 l2 cnt firstE out :
  conv_loop rightUsed ratio (l1 ++ l2) cnt firstE out =
  match conv_loop rightUsed ratio l1 cnt firstE out with
  | Running cnt' firstE' out' => conv_loop rightUsed ratio l2 cnt' firstE' out'
  | halted => halted
  end.
Proof.
  revert cnt firstE out; induction l1 as [|buf l1 IH]; intros cnt firstE out;
    [reflexivity|].
  cbn [app conv_loop].
  destruct (conv_line rightUsed ratio (cnt + 1) firstE buf); [apply IH|].
  reflexivity.
Qed.

(** [cnt] counts the lines read. *)
Lemma conv_loop_count rightUsed ratio lines cnt firstE out cnt' firstE' out' :
  conv_loop rightUsed ratio lines cnt firstE out = Running cnt' firstE' out' ->
  cnt' = (cnt + Z.of_nat (List.length lines))%Z.
Proof.
  revert cnt firstE out; induction lines as [|buf lines IH];
    intros cnt firstE out H.
  - cbn in H. injection H as <- _ _. cbn. lia.
  - cbn [conv_loop] in H.
    destruct (conv_line rightUsed ratio (cnt + 1) firstE buf);
      [|discriminate H].
    apply IH in H. cbn [List.length]. lia.
Qed.


(** Once [FirstE] is positive no line changes it. *)
Lemma g1_loop_keeps_positive_FirstE rightUsed ratio cnt rest buf firstE r :
  (0 <? firstE)%float = true ->
  g1_loop rightUsed ratio cnt rest buf firstE = r ->
  match r with
  | Wrote _ firstE' | Stopped _ firstE' => firstE' = firstE
  end.
Proof.
  intros Hpos. revert buf r; induction rest as [|t rest IH]; intros buf r H.
  - cbn in H. subst r. reflexivity.
  - cbn [g1_loop] in H. destruct (is_E_param t); [|apply (IH _ _ H)].
    destruct (Nat.ltb 15 (String.length t)); [subst r; reflexivity|].
    unfold conv_E_param in H. rewrite Hpos in H.
    destruct rightUsed; apply (IH _ _ H).
Qed.

Lemma conv_line_keeps_positive_FirstE rightUsed ratio cnt firstE buf :
  (0 <? firstE)%float = true ->
  match conv_line rightUsed ratio cnt firstE buf with
  | Wrote _ firstE' | Stopped _ firstE' => firstE' = firstE
  end.
Proof.
  intros Hpos. unfold conv_line.
  repeat match goal with
  | |- context [if ?b then _ else _] => destruct b; try reflexivity
  end.
  - destruct (conv_speed _ _ _ _); reflexivity.
  - assert (H := g1_loop_keeps_positive_FirstE rightUsed ratio cnt
                   (tl (strtok_all buf)) (code_name G1) firstE _ Hpos eq_refl).
    destruct (g1_loop _ _ _ _ _ _); exact H.
Qed.

Lemma conv_loop_keeps_positive_FirstE rightUsed ratio lines cnt firstE out :
  (0 <? firstE)%float = true ->
  match conv_loop rightUsed ratio lines cnt firstE out with
  | Running _ firstE' _ | Halted _ firstE' _ => firstE' = firstE
  end.
Proof.
  intros Hpos. revert cnt out; induction lines as [|buf lines IH];
    intros cnt out; [reflexivity|].
  cbn [conv_loop].
  assert (H := conv_line_keeps_positive_FirstE rightUsed ratio (cnt + 1)
                 firstE buf Hpos).
  destruct (conv_line rightUsed ratio (cnt + 1) firstE buf); subst.
  - apply IH.
  - reflexivity.
Qed.
End RunFacts.



(** C3.  The program takes the baseline for set when [FirstE > 0].  A
    first extrusion value of 0 sets the baseline to 0, and the extrusion
    parameter of the next move is then not split into the new value and
    the value read: with the left toolhead in use and the ratio of the
    diameters 2 and 1.5, the moves [G1 E0], [G1 E5] give [G1 A5 B5] where
    the baseline 0 gives [NewE = 8.88889] and so [G1 A8.88889 B5].  With a
    first value of 1 the same move is split: [G1 A8.11111 B5]. *)
Theorem baseline_of_zero_is_taken_for_unset :
  conv_line (libc := decimal_libc) false (diameter_ratio 2 1.5) 1 0
    ("G1 E0" ++ nl)
  = Wrote ("G1 A0 B0" ++ nl) 0 /\
  print_5f (second_E (diameter_ratio 2 1.5) 0
              (read_E (libc := decimal_libc) "E5")) = "8.88889" /\
  conv_line (libc := decimal_libc) false (diameter_ratio 2 1.5) 2 0
    ("G1 E5" ++ nl)
  = Wrote ("G1 A5 B5" ++ nl) 5 /\
  main (libc := decimal_libc) (FilesDiameters 2 1.5)
    (Some ("M101 T1" ++ nl ++ "G1 E0" ++ nl ++ "G1 E5" ++ nl)) true
  = mkEffect 0 (mkGlobals true false 5 (diameter_ratio 2 1.5))
      (Some ("M101 T1" ++ nl ++ "M101 T0" ++ nl ++ "G1 A0 B0" ++ nl
             ++ "G1 A5 B5" ++ nl)) None /\
  conv_line (libc := decimal_libc) false (diameter_ratio 2 1.5) 2 1
    ("G1 E5" ++ nl)
  = Wrote ("G1 A8.11111 B5" ++ nl) 1.
Proof. repeat split; vm_compute; reflexivity. Qed.

(** C4.  [FirstE] also stands for "no baseline yet" while it is not
    positive, so a first extrusion value of 0 is stored and then taken for
    none: of the moves [G1 E0], [G1 E5], [G1 E8] the second is written
    unscaled and stores [FirstE] again, and the third is scaled against 5,
    the second value, where the first extrusion value of the file was 0. *)
Theorem first_E_of_zero_is_stored_again :
  conv_loop (libc := decimal_libc) false 1 ["G1 E0" ++ nl] 0 0 EmptyString
  = Running 1 0 ("G1 A0 B0" ++ nl) /\
  conv_loop (libc := decimal_libc) false 1 ["G1 E0" ++ nl; "G1 E5" ++ nl]
    0 0 EmptyString
  = Running 2 5 ("G1 A0 B0" ++ nl ++ "G1 A5 B5" ++ nl) /\
  conv_loop (libc := decimal_libc) false 1
    ["G1 E0" ++ nl; "G1 E5" ++ nl; "G1 E8" ++ nl] 0 0 EmptyString
  = Running 3 5 ("G1 A0 B0" ++ nl ++ "G1 A5 B5" ++ nl
                 ++ "G1 A8.00000 B8" ++ nl) /\
  conv_loop (libc := decimal_libc) false (diameter_ratio 2 1.5)
    ["G1 E0" ++ nl; "G1 E5" ++ nl; "G1 E8" ++ nl] 0 0 EmptyString
  = Running 3 5 ("G1 A0 B0" ++ nl ++ "G1 A5 B5" ++ nl
                 ++ "G1 A10.33333 B8" ++ nl).
Proof. repeat split; vm_compute; reflexivity. Qed.

(** ** The detector *)

Lemma check_temp_loop_spec (rest : list string) (UsedLeft UsedRight : bool)
    (Temp : Z) :
  check_temp_loop rest UsedLeft UsedRight Temp =
  (UsedLeft || existsb (String.eqb "T1") rest,
   UsedRight || existsb (String.eqb "T0") rest,
   last (S_values rest) Temp).
Proof.
  revert UsedLeft UsedRight Temp.
  induction rest as [|Token rest IH]; intros UsedLeft UsedRight Temp.
  - cbn. rewrite !orb_false_r. reflexivity.
  - cbn [check_temp_loop existsb]. rewrite IH, sscanf_S_d_value.
    unfold S_values. cbn [flat_map].
    destruct ("T1" =? Token), ("T0" =? Token), UsedLeft, UsedRight,
      (S_value Token) as [v|];
      cbn [orb app]; rewrite ?last_cons; reflexivity.
Qed.

Local Arguments String.eqb : simpl never.

(** A line changes the flags by the claim it makes, and stops the pass when
    it claims one toolhead while the flag of the other is set. *)
Lemma check_line_claim (g : globals) (buf : string) :
  check_line g buf =
  match claim_of buf with
  | None => Some g
  | Some Right => if LeftUsed g then None else Some (set_RightUsed g)
  | Some Left => if RightUsed g then None else Some (set_LeftUsed g)
  end.
Proof.
  unfold check_line, claim_of.
  destruct (strtok_all buf) as [|verb rest]; [reflexivity|].
  cbn [hd_error tl]. unfold CheckCode, CODES, CheckCode_from.
  destruct (String.eqb_spec verb "M101") as [->|_].
  { cbn. destruct rest as [|Token rest]; [reflexivity|].
    destruct ("T0" =? Token); [reflexivity|].
    destruct ("T1" =? Token); reflexivity. }
  destruct (String.eqb_spec verb "M102") as [->|_].
  { cbn. destruct rest as [|Token rest]; [reflexivity|].
    destruct ("T0" =? Token); [reflexivity|].
    destruct ("T1" =? Token); reflexivity. }
  destruct (String.eqb_spec verb "M103") as [->|_]; [reflexivity|].
  destruct (String.eqb_spec verb "M104") as [->|_].
  { cbn. rewrite check_temp_loop_spec. cbn [orb]. unfold last_S_temp.
    destruct (existsb (String.eqb "T0") rest && _); [reflexivity|].
    destruct (existsb (String.eqb "T1") rest && _); reflexivity. }
  destruct (String.eqb_spec verb "M108") as [->|_]; [reflexivity|].
  destruct (String.eqb_spec verb "M6") as [->|_]; [reflexivity|].
  destruct (String.eqb_spec verb "G1") as [->|_]; reflexivity.
Qed.

Lemma check_loop_detect (lines : list string) :
  forall claimed g,
  flags_are claimed g ->
  exists g',
    match detect claimed lines with
    | Conflict => check_loop g lines = (g', false)
    | NoneUsed =>
        check_loop g lines = (g', true) /\
        LeftUsed g' = false /\ RightUsed g' = false
    | RightActive =>
        check_loop g lines = (g', true) /\
        LeftUsed g' = false /\ RightUsed g' = true
    | LeftActive =>
        check_loop g lines = (g', true) /\
        LeftUsed g' = true /\ RightUsed g' = false
    end.
Proof.
  induction lines as [|buf lines IH]; intros claimed g [HL HR].
  - exists g. cbn. destruct claimed as [[|]|]; auto.
  - cbn [detect check_loop]. rewrite check_line_claim.
    destruct (claim_of buf) as [[|]|].
    + (* the line claims the left toolhead *)
      destruct claimed as [[|]|]; cbn [same_toolhead].
      * rewrite HR. apply (IH (Some Left)).
        split; cbn; [reflexivity | exact HR].
      * rewrite HR. exists g. reflexivity.
      * rewrite HR. apply (IH (Some Left)).
        split; cbn; [reflexivity | exact HR].
    + (* the line claims the right toolhead *)
      destruct claimed as [[|]|]; cbn [same_toolhead].
      * rewrite HL. exists g. reflexivity.
      * rewrite HL. apply (IH (Some Right)).
        split; cbn; [exact HL | reflexivity].
      * rewrite HL. apply (IH (Some Right)).
        split; cbn; [exact HL | reflexivity].
    + destruct claimed as [[|]|]; apply IH; split; assumption.
Qed.

Lemma check_args_flags (args : cmdline) (g : globals) :
  check_args cleared args = inr g -> flags_are None g.
Proof.
  destruct args as [|D1 D2|]; cbn; intros H.
  - injection H as <-. split; reflexivity.
  - destruct (too_big_small D1); [discriminate H|].
    destruct (too_big_small D2); [discriminate H|].
    injection H as <-. split; reflexivity.
  - discriminate H.
Qed.

(** The claim [CheckFile] takes from a line is the first of the claims
    the specification gives it. *)
Lemma claim_of_first (buf : string) : claim_of buf = hd_error (claims_of buf).
Proof.
  unfold claim_of, claims_of.
  destruct (strtok_all buf) as [|verb rest]; [reflexivity|].
  destruct ((verb =? "M101") || (verb =? "M102")).
  { destruct rest as [|Token rest]; [reflexivity|].
    destruct ("T0" =? Token); [reflexivity|].
    destruct ("T1" =? Token); reflexivity. }
  destruct (verb =? "M104"); [|reflexivity].
  destruct (existsb (String.eqb "T0") rest && _); [reflexivity|].
  destruct (existsb (String.eqb "T1") rest && _); reflexivity.
Qed.

(** On a file in which no line makes two claims the two detectors are the
    same. *)
Lemma detect_independent_one_claim (lines : list string) :
  forall claimed,
  (forall buf, In buf lines -> (List.length (claims_of buf) <= 1)%nat) ->
  detect_independent claimed lines = detect claimed lines.
Proof.
  induction lines as [|buf lines IH]; intros claimed H; [reflexivity|].
  cbn [detect_independent detect]. rewrite claim_of_first.
  assert (Hbuf := H buf (or_introl eq_refl)).
  assert (Hrest : forall b, In b lines ->
                            (List.length (claims_of b) <= 1)%nat)
    by (intros b Hb; apply H; right; exact Hb).
  destruct (claims_of buf) as [|h [|h2 cs]].
  - cbn. apply IH, Hrest.
  - cbn. destruct claimed as [h'|]; [|apply IH, Hrest].
    destruct (same_toolhead h h'); [apply IH, Hrest | reflexivity].
  - cbn in Hbuf. lia.
Qed.

Section DetectorFacts.
Context {libc : Libc}.

End DetectorFacts.



(** ** The ratio of the filament areas

    The properties of [diameter_ratio] are properties of binary64
    arithmetic; they are proved from the specification of the primitive
    operations ([FloatAxioms]) on [spec_float]. *)

Local Open Scope Z_scope.

Lemma digits2_pos_size (p : positive) : digits2_pos p = Pos.size p.
Proof. induction p; simpl; congruence. Qed.

Lemma Zdigits2_log2 (p : positive) : Zdigits2 (Zpos p) = Z.log2 (Zpos p) + 1.
Proof.
  unfold Zdigits2. rewrite digits2_pos_size.
  destruct p; simpl; rewrite ?Pos2Z.inj_succ; lia.
Qed.

(** A positive number has [d] binary digits when it lies between [2^(d-1)]
    and [2^d]. *)
Lemma Zdigits2_bounds (p : positive) :
  2 ^ (Zdigits2 (Zpos p) - 1) <= Zpos p < 2 ^ Zdigits2 (Zpos p).
Proof.
  rewrite Zdigits2_log2.
  replace (Z.log2 (Zpos p) + 1 - 1) with (Z.log2 (Zpos p)) by lia.
  apply (Z.log2_spec (Zpos p)). reflexivity.
Qed.

Lemma Zdigits2_unique (p : positive) (d : Z) :
  2 ^ (d - 1) <= Zpos p < 2 ^ d -> 1 <= d -> Zdigits2 (Zpos p) = d.
Proof.
  intros H Hd. rewrite Zdigits2_log2.
  rewrite (Z.log2_unique (Zpos p) (d - 1)); [lia | lia |].
  replace (Z.succ (d - 1)) with d by lia. exact H.
Qed.

Lemma shr_1_m (mrs : shr_record) :
  0 <= shr_m mrs -> shr_m (shr_1 mrs) = shr_m mrs / 2.
Proof.
  destruct mrs as [m r s]; cbn [shr_m]; intros Hm.
  destruct m as [|p|p]; [reflexivity| |lia].
  destruct p as [p|p|]; cbn [shr_1 shr_m].
  - rewrite Pos2Z.inj_xI. apply (Z.div_unique _ _ _ 1); lia.
  - rewrite Pos2Z.inj_xO. apply (Z.div_unique _ _ _ 0); lia.
  - reflexivity.
Qed.

Lemma iter_shr_1_m (n : positive) :
  forall mrs, 0 <= shr_m mrs ->
  shr_m (iter_pos shr_1 n mrs) = shr_m mrs / 2 ^ Zpos n.
Proof.
  induction n as [n IH|n IH|]; intros mrs Hm; cbn [iter_pos].
  - assert (H1 : 0 <= shr_m (shr_1 mrs))
      by (rewrite shr_1_m by exact Hm; apply Z.div_pos; lia).
    assert (H2 : 0 <= shr_m (iter_pos shr_1 n (shr_1 mrs)))
      by (rewrite IH by exact H1; apply Z.div_pos; lia).
    rewrite (IH _ H2), (IH _ H1), (shr_1_m _ Hm).
    rewrite !Z.div_div by lia. f_equal.
    replace (Z.pos n~1) with (1 + Z.pos n + Z.pos n) by lia.
    rewrite !Z.pow_add_r by lia. change (2 ^ 1) with 2. ring.
  - assert (H1 : 0 <= shr_m (iter_pos shr_1 n mrs))
      by (rewrite IH by exact Hm; apply Z.div_pos; lia).
    rewrite (IH _ H1), (IH _ Hm).
    rewrite Z.div_div by lia. f_equal.
    replace (Z.pos n~0) with (Z.pos n + Z.pos n) by lia.
    rewrite Z.pow_add_r by lia. ring.
  - apply shr_1_m. exact Hm.
Qed.

Lemma round_nearest_even_bounds (m : Z) (l : location) :
  m <= round_nearest_even m l <= m + 1.
Proof.
  destruct l as [|[]]; cbn [round_nearest_even]; try lia.
  destruct (Z.even m); lia.
Qed.

Lemma shr_record_of_loc_m (m : Z) (l : location) :
  shr_m (shr_record_of_loc m l) = m.
Proof. destruct l as [|[]]; reflexivity. Qed.

Lemma shr_nonneg (mrs : shr_record) (e n : Z) :
  0 <= n ->
  shr mrs e n =
  (match n with Zpos p => iter_pos shr_1 p mrs | _ => mrs end, e + n).
Proof. destruct n; cbn [shr]; intros; f_equal; lia. Qed.

Lemma fexp_normal (e : Z) : -1021 <= e -> fexp prec emax e = e - 53.
Proof. unfold fexp, SpecFloat.emin, prec, emax. lia. Qed.

(** Rounding a mantissa of at least 53 digits, away from the ends of the
    exponent range: the result is a normal number whose mantissa does not
    depend on the exponent. *)
Lemma binary_round_aux_normal (mx : positive) (lx : location) :
  2 ^ 52 <= Zpos mx ->
  exists (M : positive) (delta : Z),
    2 ^ 52 <= Zpos M < 2 ^ 53 /\ 0 <= delta <= 1 /\
    forall s ex,
      -900 <= ex -> ex + Zdigits2 (Zpos mx) <= 900 ->
      binary_round_aux prec emax s (Zpos mx) ex lx
      = S754_finite s M (ex + Zdigits2 (Zpos mx) - 53 + delta).
Proof.
  intros Hmx.
  set (d := Zdigits2 (Zpos mx)).
  assert (Hd : 2 ^ (d - 1) <= Zpos mx < 2 ^ d) by apply Zdigits2_bounds.
  assert (Hd53 : 53 <= d).
  { destruct (Z.lt_ge_cases d 53) as [Hlt|]; [|assumption].
    assert (2 ^ d <= 2 ^ 52) by (apply Z.pow_le_mono_r; lia). lia. }
  set (rec0 := shr_record_of_loc (Zpos mx) lx).
  set (rec1 := match d - 53 with
               | Zpos p => iter_pos shr_1 p rec0
               | _ => rec0
               end).
  assert (Hrec1 : shr_m rec1 = Zpos mx / 2 ^ (d - 53)).
  { unfold rec1. destruct (d - 53) as [|p|p] eqn:E.
    - unfold rec0. rewrite shr_record_of_loc_m, Z.div_1_r. reflexivity.
    - rewrite iter_shr_1_m; unfold rec0; rewrite shr_record_of_loc_m;
        [reflexivity | lia].
    - lia. }
  assert (Hm1 : 2 ^ 52 <= shr_m rec1 < 2 ^ 53).
  { rewrite Hrec1.
    assert (Hp : 0 < 2 ^ (d - 53)) by (apply Z.pow_pos_nonneg; lia).
    split.
    - apply Z.div_le_lower_bound; [exact Hp|].
      rewrite <- Z.pow_add_r by lia.
      replace (d - 53 + 52) with (d - 1) by lia. apply Hd.
    - apply Z.div_lt_upper_bound; [exact Hp|].
      rewrite <- Z.pow_add_r by lia.
      replace (d - 53 + 53) with d by lia. apply Hd. }
  set (M0 := round_nearest_even (shr_m rec1) (loc_of_shr_record rec1)).
  assert (HM0 : shr_m rec1 <= M0 <= shr_m rec1 + 1)
    by apply round_nearest_even_bounds.
  assert (Hfirst : forall ex, -900 <= ex ->
            shr_fexp prec emax (Zpos mx) ex lx = (rec1, ex + (d - 53))).
  { intros ex Hex. unfold shr_fexp. fold d. rewrite fexp_normal by lia.
    replace (d + ex - 53 - ex) with (d - 53) by lia.
    rewrite shr_nonneg by lia. reflexivity. }
  destruct (Z.eq_dec M0 (2 ^ 53)) as [Hcarry|Hno].
  - exists (2 ^ 52)%positive, 1. split; [split; [reflexivity|reflexivity]|].
    split; [lia|]. intros s ex Hlo Hhi.
    unfold binary_round_aux. rewrite (Hfirst ex Hlo). fold M0.
    rewrite Hcarry. unfold shr_fexp.
    change (Zdigits2 (2 ^ 53)) with 54.
    rewrite fexp_normal by lia.
    replace (54 + (ex + (d - 53)) - 53 - (ex + (d - 53))) with 1 by lia.
    cbn [shr shr_record_of_loc iter_pos].
    change (shr_m (shr_1 {| shr_m := 2 ^ 53; shr_r := false; shr_s := false |}))
      with (Zpos (2 ^ 52)).
    cbv beta iota.
    replace (ex + (d - 53) + 1 <=? emax - prec) with true
      by (symmetry; apply Z.leb_le; unfold emax, prec; lia).
    f_equal. lia.
  - assert (HM0' : 2 ^ 52 <= M0 < 2 ^ 53) by lia.
    destruct M0 as [|M|M] eqn:EM0; [lia| |lia].
    exists M, 0. split; [exact HM0'|]. split; [lia|].
    intros s ex Hlo Hhi.
    unfold binary_round_aux. rewrite (Hfirst ex Hlo). fold M0.
    rewrite EM0. unfold shr_fexp.
    rewrite (Zdigits2_unique M 53) by (change (53 - 1) with 52; lia).
    rewrite fexp_normal by lia.
    replace (53 + (ex + (d - 53)) - 53 - (ex + (d - 53))) with 0 by lia.
    cbn [shr shr_record_of_loc shr_m].
    replace (ex + (d - 53) <=? emax - prec) with true
      by (symmetry; apply Z.leb_le; unfold emax, prec; lia).
    f_equal. lia.
Qed.

Lemma Zdigits2_le (p : positive) (k : Z) :
  Zpos p < 2 ^ k -> 0 <= k -> Zdigits2 (Zpos p) <= k.
Proof.
  intros H Hk. assert (Hd := Zdigits2_bounds p).
  destruct (Z.le_gt_cases (Zdigits2 (Zpos p)) k) as [|Hgt]; [assumption|].
  assert (2 ^ k <= 2 ^ (Zdigits2 (Zpos p) - 1))
    by (apply Z.pow_le_mono_r; lia).
  lia.
Qed.

Lemma Zdigits2_ge (p : positive) (k : Z) :
  2 ^ k <= Zpos p -> k + 1 <= Zdigits2 (Zpos p).
Proof.
  intros H. assert (Hd := Zdigits2_bounds p).
  destruct (Z.le_gt_cases (k + 1) (Zdigits2 (Zpos p))) as [|Hgt];
    [assumption|].
  assert (0 <= Zdigits2 (Zpos p))
    by (rewrite Zdigits2_log2; pose proof (Z.log2_nonneg (Zpos p)); lia).
  assert (2 ^ Zdigits2 (Zpos p) <= 2 ^ k) by (apply Z.pow_le_mono_r; lia).
  lia.
Qed.

Lemma div_eucl_div_mod (a b : Z) : Z.div_eucl a b = (a / b, a mod b).
Proof. unfold Z.div, Z.modulo. destruct (Z.div_eucl a b); reflexivity. Qed.

(** The comparisons of [spec_float]. *)
Lemma SFleb_not_ltb (x y : spec_float) : SFleb x y = true -> SFltb y x = false.
Proof.
  unfold SFleb, SFltb, SFcompare.
  destruct x as [sx|sx| |sx mx ex], y as [sy|sy| |sy my ey];
    try destruct sx; try destruct sy; try discriminate; try reflexivity;
    assert (Em := Pos.compare_cont_antisym mx my Eq); cbn [CompOpp] in Em;
    rewrite <- Em, (Z.compare_antisym ex ey);
    destruct (ex ?= ey), (Pos.compare_cont Eq mx my); cbn [CompOpp];
    try discriminate; reflexivity.
Qed.

Lemma leb_not_ltb (x y : float) :
  (x <=? y)%float = true -> (y <? x)%float = false.
Proof. rewrite leb_spec, ltb_spec. apply SFleb_not_ltb. Qed.

(** A diameter the program accepts is a normal number with exponent -52 or
    -51. *)
Lemma diameter_in_range (D : float) :
  (min_diameter <=? D)%float = true -> (D <=? max_diameter)%float = true ->
  exists m e, Prim2SF D = S754_finite false m e /\
              -52 <= e <= -51 /\ 2 ^ 52 <= Zpos m < 2 ^ 53.
Proof.
  rewrite !leb_spec. intros Hlo Hhi.
  assert (Hv := Prim2SF_valid D).
  change (Prim2SF min_diameter) with (S754_finite false 6755399441055744 (-52)) in Hlo.
  change (Prim2SF max_diameter) with (S754_finite false 4953959590107546 (-51)) in Hhi.
  destruct (Prim2SF D) as [s|s| |s m e]; try discriminate Hlo.
  - destruct s; discriminate.
  - destruct s; [discriminate Hlo|].
    unfold SFleb, SFcompare in Hlo, Hhi.
    assert (He1 : -52 <= e).
    { destruct (Z.compare_spec (-52) e); try lia; discriminate Hlo. }
    assert (He2 : e <= -51).
    { destruct (Z.compare_spec e (-51)); try lia; discriminate Hhi. }
    exists m, e. split; [reflexivity|]. split; [lia|].
    cbn [valid_binary] in Hv. unfold bounded, canonical_mantissa in Hv.
    apply andb_prop in Hv. destruct Hv as [Hc _]. apply Z.eqb_eq in Hc.
    rewrite fexp_normal in Hc by lia.
    assert (Hd : Zdigits2 (Zpos m) = 53) by (unfold Zdigits2; lia).
    assert (Hb := Zdigits2_bounds m). rewrite Hd in Hb. exact Hb.
Qed.

(** The quotient of two normal numbers, before rounding. *)
Lemma SFdiv_normal (s1 s2 : bool) (m1 m2 : positive) (e1 e2 : Z) :
  2 ^ 52 <= Zpos m1 < 2 ^ 53 ->
  2 ^ 52 <= Zpos m2 < 2 ^ 53 ->
  -900 <= e1 - e2 <= 900 ->
  SFdiv prec emax (S754_finite s1 m1 e1) (S754_finite s2 m2 e2) =
  binary_round_aux prec emax (xorb s1 s2)
    (Zpos m1 * 2 ^ 53 / Zpos m2) (e1 - e2 - 53)
    (new_location (Zpos m2) (Zpos m1 * 2 ^ 53 mod Zpos m2)).
Proof.
  intros H1 H2 He. unfold SFdiv, SFdiv_core_binary.
  rewrite (Zdigits2_unique m1 53), (Zdigits2_unique m2 53)
    by (change (53 - 1) with 52; lia).
  rewrite fexp_normal by lia.
  replace (Z.min (53 + e1 - (53 + e2) - 53) (e1 - e2)) with (e1 - e2 - 53)
    by lia.
  replace (e1 - e2 - (e1 - e2 - 53)) with 53 by lia.
  cbv beta iota. rewrite Z.shiftl_mul_pow2 by lia.
  rewrite div_eucl_div_mod. reflexivity.
Qed.

(** Halving a diameter is exact. *)
Lemma half_diameter (m : positive) (e : Z) :
  2 ^ 52 <= Zpos m < 2 ^ 53 -> -52 <= e <= -51 ->
  SF64div (S754_finite false m e) (Prim2SF 2)
  = S754_finite false m (e - 1).
Proof.
  intros Hm He.
  change (Prim2SF 2) with (S754_finite false (2 ^ 52) (-51)).
  unfold SF64div. rewrite SFdiv_normal by (cbn; lia).
  change (Zpos (2 ^ 52)) with (2 ^ 52).
  replace (Zpos m * 2 ^ 53) with (Zpos m~0 * 2 ^ 52)
    by (rewrite Pos2Z.inj_xO; change (2 ^ 53) with (2 * 2 ^ 52); ring).
  rewrite Z.div_mul, Z.mod_mul by lia.
  change (new_location (2 ^ 52) 0) with loc_Exact.
  unfold binary_round_aux, shr_fexp.
  rewrite (Zdigits2_unique m~0 54)
    by (rewrite Pos2Z.inj_xO; change (54 - 1) with 53;
        change (2 ^ 54) with (2 * 2 ^ 53); change (2 ^ 53) with (2 * 2 ^ 52);
        lia).
  rewrite fexp_normal by lia.
  replace (54 + (e - -51 - 53) - 53 - (e - -51 - 53)) with 1 by lia.
  cbn [shr shr_record_of_loc iter_pos shr_1 shr_m loc_of_shr_record orb
       round_nearest_even xorb].
  rewrite (Zdigits2_unique m 53) by (change (53 - 1) with 52; lia).
  rewrite fexp_normal by lia.
  replace (53 + (e - -51 - 53 + 1) - 53 - (e - -51 - 53 + 1)) with 0 by lia.
  cbn [shr shr_m].
  replace (e - -51 - 53 + 1 <=? emax - prec) with true
    by (symmetry; apply Z.leb_le; unfold emax, prec; lia).
  f_equal. lia.
Qed.

(** The square of a normal number with a small exponent: a normal number
    whose mantissa is the same for every such exponent. *)
Lemma square_normal (m : positive) :
  2 ^ 52 <= Zpos m < 2 ^ 53 ->
  exists (M : positive) (k : Z),
    2 ^ 52 <= Zpos M < 2 ^ 53 /\ 52 <= k <= 54 /\
    forall e, -60 <= e <= 60 ->
      SF64mul (S754_finite false m e) (S754_finite false m e)
      = S754_finite false M (e + e + k).
Proof.
  intros Hm.
  assert (Hsq : 2 ^ 104 <= Zpos (m * m) < 2 ^ 106).
  { rewrite Pos2Z.inj_mul.
    change (2 ^ 104) with (2 ^ 52 * 2 ^ 52).
    change (2 ^ 106) with (2 ^ 53 * 2 ^ 53). nia. }
  assert (Hd1 : 105 <= Zdigits2 (Zpos (m * m)))
    by (apply (Zdigits2_ge _ 104); lia).
  assert (Hd2 : Zdigits2 (Zpos (m * m)) <= 106)
    by (apply Zdigits2_le; lia).
  destruct (binary_round_aux_normal (m * m) loc_Exact)
    as (M & delta & HM & Hdelta & H).
  { change (2 ^ 52) with (2 ^ 52 * 1). change (2 ^ 104) with (2 ^ 52 * 2 ^ 52) in Hsq. lia. }
  exists M, (Zdigits2 (Zpos (m * m)) - 53 + delta).
  split; [exact HM|]. split; [lia|].
  intros e He. unfold SF64mul, SFmul. cbn [xorb].
  rewrite H by lia. f_equal. lia.
Qed.

Lemma quotient_normal (Ma Mb : positive) :
  2 ^ 52 <= Zpos Ma < 2 ^ 53 -> 2 ^ 52 <= Zpos Mb < 2 ^ 53 ->
  exists q : positive,
    Zpos Ma * 2 ^ 53 / Zpos Mb = Zpos q /\ 2 ^ 52 <= Zpos q < 2 ^ 55.
Proof.
  intros Ha Hb.
  assert (Hlo : 2 ^ 52 <= Zpos Ma * 2 ^ 53 / Zpos Mb).
  { apply Z.div_le_lower_bound; [lia|]. nia. }
  assert (Hhi : Zpos Ma * 2 ^ 53 / Zpos Mb < 2 ^ 55).
  { apply Z.div_lt_upper_bound; [lia|].
    change (2 ^ 55) with (2 ^ 53 * 4). nia. }
  destruct (Zpos Ma * 2 ^ 53 / Zpos Mb) as [|q|q]; [lia| |lia].
  exists q. split; [reflexivity | lia].
Qed.

(** The ratio of two accepted diameters: halving both changes nothing, and
    the ratio is positive. *)
Lemma diameter_ratio_normal (D1 D2 : float) :
  (min_diameter <=? D1)%float = true -> (D1 <=? max_diameter)%float = true ->
  (min_diameter <=? D2)%float = true -> (D2 <=? max_diameter)%float = true ->
  diameter_ratio D1 D2 = ((D1 * D1) / (D2 * D2))%float /\
  (0 <? diameter_ratio D1 D2)%float = true.
Proof.
  intros H1lo H1hi H2lo H2hi.
  destruct (diameter_in_range D1 H1lo H1hi) as (m1 & e1 & P1 & He1 & Hm1).
  destruct (diameter_in_range D2 H2lo H2hi) as (m2 & e2 & P2 & He2 & Hm2).
  destruct (square_normal m1 Hm1) as (Ma & ka & HMa & Hka & Sa).
  destruct (square_normal m2 Hm2) as (Mb & kb & HMb & Hkb & Sb).
  assert (Ha : Prim2SF ((D1 / 2) * (D1 / 2))
               = S754_finite false Ma (e1 - 1 + (e1 - 1) + ka)).
  { rewrite mul_spec, div_spec, P1, half_diameter by assumption.
    apply Sa. lia. }
  assert (Hb : Prim2SF ((D2 / 2) * (D2 / 2))
               = S754_finite false Mb (e2 - 1 + (e2 - 1) + kb)).
  { rewrite mul_spec, div_spec, P2, half_diameter by assumption.
    apply Sb. lia. }
  assert (Ha' : Prim2SF (D1 * D1) = S754_finite false Ma (e1 + e1 + ka)).
  { rewrite mul_spec, P1. apply Sa. lia. }
  assert (Hb' : Prim2SF (D2 * D2) = S754_finite false Mb (e2 + e2 + kb)).
  { rewrite mul_spec, P2. apply Sb. lia. }
  assert (Hr : Prim2SF (diameter_ratio D1 D2) =
               binary_round_aux prec emax false
                 (Zpos Ma * 2 ^ 53 / Zpos Mb)
                 (e1 + e1 + ka - (e2 + e2 + kb) - 53)
                 (new_location (Zpos Mb) (Zpos Ma * 2 ^ 53 mod Zpos Mb))).
  { unfold diameter_ratio. rewrite div_spec, Ha, Hb. unfold SF64div.
    rewrite SFdiv_normal by (assumption || lia). cbn [xorb].
    f_equal. lia. }
  split.
  - apply Prim2SF_inj. rewrite Hr, div_spec, Ha', Hb'. unfold SF64div.
    rewrite SFdiv_normal by (assumption || lia). reflexivity.
  - destruct (quotient_normal Ma Mb HMa HMb) as (q & Eq & Hq).
    rewrite Eq in Hr.
    destruct (binary_round_aux_normal q
                (new_location (Zpos Mb) (Zpos Ma * 2 ^ 53 mod Zpos Mb)))
      as (M & delta & _ & _ & H); [lia|].
    assert (Zdigits2 (Zpos q) <= 55) by (apply Zdigits2_le; lia).
    rewrite H in Hr by lia.
    rewrite ltb_spec, Hr. reflexivity.
Qed.

Lemma accepted_diameter (D : float) :
  (min_diameter <=? D)%float = true -> (D <=? max_diameter)%float = true ->
  too_big_small D = false.
Proof.
  intros Hlo Hhi. unfold too_big_small.
  rewrite (leb_not_ltb _ _ Hlo), (leb_not_ltb _ _ Hhi). reflexivity.
Qed.

Lemma check_line_Ratio (g g' : globals) (buf : string) :
  check_line g buf = Some g' -> Ratio g' = Ratio g.
Proof.
  rewrite check_line_claim.
  destruct (claim_of buf) as [[|]|]; intros H.
  - destruct (RightUsed g); [discriminate H|]. injection H as <-. reflexivity.
  - destruct (LeftUsed g); [discriminate H|]. injection H as <-. reflexivity.
  - injection H as <-. reflexivity.
Qed.

Lemma check_loop_Ratio (lines : list string) (g : globals) :
  Ratio (fst (check_loop g lines)) = Ratio g.
Proof.
  revert g; induction lines as [|buf lines IH]; intros g; [reflexivity|].
  cbn [check_loop]. destruct (check_line g buf) as [g'|] eqn:E; [|reflexivity].
  rewrite IH. apply (check_line_Ratio _ _ _ E).
Qed.

Section RatioFacts.
Context {libc : Libc}.

(** [Ratio] is assigned by the [switch] on [argc] and by nothing after
    it. *)
Lemma main_Ratio (args : cmdline) (infile : option string) (creatable : bool) :
  Ratio (globals_after (main args infile creatable)) =
  match check_args cleared args with
  | inr g => Ratio g
  | inl _ => 1%float
  end.
Proof.
  unfold main. destruct (check_args cleared args) as [e|g]; [reflexivity|].
  unfold CheckFile. destruct infile as [file|]; [|reflexivity].
  assert (HR := check_loop_Ratio (fgets_all 1024 file) g).
  destruct (check_loop g (fgets_all 1024 file)) as [g' ok]. cbn [fst] in HR.
  destruct ok; [|exact HR].
  destruct (negb (RightUsed g') && negb (LeftUsed g')); [exact HR|].
  unfold ConvFile. destruct creatable; [|exact HR].
  destruct (conv_loop _ _ _ _ _ _); exact HR.
Qed.

(** C9, as binary64 arithmetic has it.  For diameters between 1.5 and 2.2
    the run goes on with [Ratio = ((D1/2)*(D1/2)) / ((D2/2)*(D2/2))]; this
    is the same [double] as [(D1*D1) / (D2*D2)], the halves cancelling
    without rounding, and it is greater than zero.  Without diameters
    [Ratio] is 1.0. *)
Theorem ratio_of_accepted_diameters D1 D2 infile creatable :
  (min_diameter <=? D1)%float = true -> (D1 <=? max_diameter)%float = true ->
  (min_diameter <=? D2)%float = true -> (D2 <=? max_diameter)%float = true ->
  let ratio :=
    Ratio (globals_after (main (FilesDiameters D1 D2) infile creatable)) in
  ratio = (((D1 / 2) * (D1 / 2)) / ((D2 / 2) * (D2 / 2)))%float /\
  ratio = ((D1 * D1) / (D2 * D2))%float /\
  (0 <? ratio)%float = true /\
  Ratio (globals_after (main Files infile creatable)) = 1%float.
Proof.
  intros H1lo H1hi H2lo H2hi ratio.
  assert (E : ratio = diameter_ratio D1 D2).
  { unfold ratio. rewrite main_Ratio. cbn [check_args].
    rewrite (accepted_diameter D1 H1lo H1hi), (accepted_diameter D2 H2lo H2hi).
    reflexivity. }
  destruct (diameter_ratio_normal D1 D2 H1lo H1hi H2lo H2hi) as [Hsq Hpos].
  rewrite E. repeat split; [exact Hsq | exact Hpos | apply main_Ratio].
Qed.
End RatioFacts.

Lemma ratio_of_accepted_diameters_witness :
  let ratio :=
    Ratio (globals_after
             (main (libc := decimal_libc)
                (FilesDiameters 1.75 0x1.ccccccccccccdp+0)
                (Some ("M101 T0" ++ nl)%string) true)) in
  ratio = (((1.75 / 2) * (1.75 / 2))
           / ((0x1.ccccccccccccdp+0 / 2) * (0x1.ccccccccccccdp+0 / 2)))%float /\
  ratio = ((1.75 * 1.75)
           / (0x1.ccccccccccccdp+0 * 0x1.ccccccccccccdp+0))%float /\
  (0 <? ratio)%float = true /\
  Ratio (globals_after (main (libc := decimal_libc) Files
                          (Some ("M101 T0" ++ nl)%string) true)) = 1%float.
Proof.
  apply (ratio_of_accepted_diameters (libc := decimal_libc)
           1.75 0x1.ccccccccccccdp+0); reflexivity.
Defined.

(** The ratio is not always the square of the quotient of the diameters:
    for the [double]s nearest to 1.6 and 1.7 the two differ in the last
    place. *)
Lemma square_of_quotient_counterexample :
  (min_diameter <=? 0x1.999999999999ap+0)%float = true /\
  (0x1.999999999999ap+0 <=? max_diameter)%float = true /\
  (min_diameter <=? 0x1.b333333333333p+0)%float = true /\
  (0x1.b333333333333p+0 <=? max_diameter)%float = true /\
  diameter_ratio 0x1.999999999999ap+0 0x1.b333333333333p+0
  = 0x1.c5894d10d4988p-1%float /\
  ((0x1.999999999999ap+0 / 0x1.b333333333333p+0)
   * (0x1.999999999999ap+0 / 0x1.b333333333333p+0))%float
  = 0x1.c5894d10d4987p-1%float /\
  (diameter_ratio 0x1.999999999999ap+0 0x1.b333333333333p+0
   =? (0x1.999999999999ap+0 / 0x1.b333333333333p+0)
      * (0x1.999999999999ap+0 / 0x1.b333333333333p+0))%float = false.
Proof. repeat split; vm_compute; reflexivity. Qed.

(** * Further properties of the program *)

Local Close Scope Z_scope.

(** ** The command table *)

(** X1.  [CheckCode] and the table [CODES] are inverse to each other: the
    value returned for a token is the index of the command equal to it, and
    -1 for any other token; every index of the table is returned for its
    own command. *)
Theorem CheckCode_is_table_lookup (b : string) (k : Z) :
  (CheckCode (Some b) = k /\ k <> NOTOKENS) <->
  ((0 <= k < NUMCODES)%Z /\ code_name k = b).
Proof.
  split.
  - unfold CheckCode, CODES, CheckCode_from.
    repeat match goal with
    | |- context [String.eqb b ?c] =>
        destruct (String.eqb_spec b c) as [->|_];
        [intros [<- _]; split; [unfold NUMCODES; lia | reflexivity]|]
    end.
    intros [<- H]. contradiction H. reflexivity.
  - intros [Hk <-]. unfold NUMCODES in Hk.
    assert (H : (k = 0 \/ k = 1 \/ k = 2 \/ k = 3 \/ k = 4 \/ k = 5 \/ k = 6)%Z)
      by lia.
    decompose [or] H; subst k; split; (reflexivity || discriminate).
Qed.

(** ** Tokens *)

Lemma has_delim_app (a b : string) :
  has_delim (a ++ b) = has_delim a || has_delim b.
Proof.
  induction a as [|c a IH]; [reflexivity|].
  cbn [append has_delim]. rewrite IH, orb_assoc. reflexivity.
Qed.

Lemma strtok_from_tokens (s : string) :
  forall cur, has_delim cur = false ->
  Forall (fun Token => nonempty Token = true /\ has_delim Token = false)
    (strtok_from cur s).
Proof.
  induction s as [|c s IH]; intros cur Hcur; cbn [strtok_from].
  - destruct cur; constructor; [split; [reflexivity | exact Hcur]|constructor].
  - destruct (is_delim c) eqn:Hc.
    + apply Forall_app. split; [|apply IH; reflexivity].
      destruct cur; constructor; [split; [reflexivity | exact Hcur]|constructor].
    + apply IH. rewrite has_delim_app, Hcur. cbn [has_delim]. rewrite Hc.
      reflexivity.
Qed.

(** X2.  Every token that [strtok] returns for a line has at least one
    character and holds neither a space nor a linefeed. *)
Theorem tokens_are_nonempty_and_without_delimiter (buf : string) :
  Forall (fun Token => nonempty Token = true /\ has_delim Token = false)
    (strtok_all buf).
Proof. apply strtok_from_tokens. reflexivity. Qed.

Lemma strtok_from_append_token (t : string) :
  forall cur s, has_delim t = false ->
  strtok_from cur (t ++ s) = strtok_from (cur ++ t) s.
Proof.
  induction t as [|c t IH]; intros cur s Ht.
  - rewrite append_nil_r. reflexivity.
  - cbn [has_delim] in Ht. apply orb_false_elim in Ht. destruct Ht as [Hc Ht].
    cbn [append strtok_from]. rewrite Hc, (IH _ _ Ht), append_assoc.
    reflexivity.
Qed.

(** Tokens joined by single spaces and ended by a linefeed are read back as
    the same tokens. *)
Lemma strtok_from_join (toks : list string) :
  Forall (fun Token => nonempty Token = true /\ has_delim Token = false) toks ->
  forall cur,
  strtok_from cur (join_tokens toks ++ nl) = (flush cur ++ toks)%list.
Proof.
  induction 1 as [|t toks [Hne Hnd] _ IH]; intros cur.
  - cbn. rewrite app_nil_r. reflexivity.
  - cbn [join_tokens append]. change (is_delim " ") with true.
    cbn [strtok_from]. change (is_delim " ") with true. cbv iota.
    rewrite append_assoc, (strtok_from_append_token t _ _ Hnd), IH.
    cbn [append]. destruct t; [discriminate Hne|]. reflexivity.
Qed.

Section MoreTransformFacts.
Context {libc : Libc}.

Lemma g1_loop_copies rightUsed ratio cnt rest :
  (forall Token, In Token rest -> is_E_param Token = false) ->
  forall buf firstE,
  g1_loop rightUsed ratio cnt rest buf firstE
  = Wrote (buf ++ join_tokens rest) firstE.
Proof.
  induction rest as [|t rest IH]; intros H buf firstE.
  - cbn. rewrite append_nil_r. reflexivity.
  - cbn [g1_loop join_tokens]. rewrite (H t) by (left; reflexivity).
    rewrite IH by (intros Token HT; apply H; right; exact HT).
    rewrite !append_assoc. reflexivity.
Qed.


(** ** Files without commands *)

Lemma conv_loop_unknown rightUsed ratio lines :
  (forall buf, In buf lines ->
               CheckCode (hd_error (strtok_all buf)) = NOTOKENS) ->
  forall cnt firstE out,
  conv_loop rightUsed ratio lines cnt firstE out
  = Running (cnt + Z.of_nat (List.length lines)) firstE
      (out ++ concat_lines lines).
Proof.
  induction lines as [|buf lines IH]; intros H cnt firstE out.
  - cbn. rewrite append_nil_r, Z.add_0_r. reflexivity.
  - cbn [conv_loop]. rewrite conv_line_unknown by (apply H; left; reflexivity).
    rewrite IH by (intros b Hb; apply H; right; exact Hb).
    cbn [concat_lines List.length]. rewrite append_assoc. f_equal. lia.
Qed.
End MoreTransformFacts.

Lemma concat_fgets_from (n : nat) (s : string) :
  forall room cur, concat_lines (fgets_from n room cur s) = cur ++ s.
Proof.
  induction s as [|c s IH]; intros room cur; cbn [fgets_from].
  - rewrite append_nil_r. destruct cur; cbn; rewrite ?append_nil_r; reflexivity.
  - destruct (Ascii.eqb c LF || Nat.leb room 1).
    + cbn [concat_lines]. rewrite IH, append_assoc. reflexivity.
    + rewrite IH, append_assoc. reflexivity.
Qed.

Lemma strchr_app (a b : string) (c : ascii) :
  strchr (a ++ b) c = strchr a c || strchr b c.
Proof.
  induction a as [|d a IH]; [reflexivity|].
  cbn [append strchr]. rewrite IH, orb_assoc. reflexivity.
Qed.

Lemma fgets_from_no_NUL (n : nat) (s : string) :
  forall room cur,
  strchr cur NUL = false -> strchr s NUL = false ->
  map c_str (fgets_from n room cur s) = fgets_from n room cur s.
Proof.
  induction s as [|c s IH]; intros room cur Hcur Hs; cbn [fgets_from].
  - destruct cur; [reflexivity|]. cbn [map]. rewrite c_str_no_NUL by exact Hcur.
    reflexivity.
  - cbn [strchr] in Hs. apply orb_false_elim in Hs. destruct Hs as [Hc Hs].
    assert (Hcur' : strchr (cur ++ String c EmptyString) NUL = false).
    { rewrite strchr_app, Hcur. cbn [strchr]. rewrite Hc. reflexivity. }
    destruct (Ascii.eqb c LF || Nat.leb room 1).
    + cbn [map]. rewrite c_str_no_NUL by exact Hcur'.
      rewrite IH by (reflexivity || exact Hs). reflexivity.
    + apply IH; assumption.
Qed.

(** The pieces [fgets] delivers make up the file. *)
Lemma concat_fgets_all (n : nat) (file : string) :
  strchr file NUL = false -> concat_lines (fgets_all n file) = file.
Proof.
  intros H. unfold fgets_all.
  rewrite fgets_from_no_NUL by (reflexivity || exact H).
  apply concat_fgets_from.
Qed.

Section CopyFacts.
Context {libc : Libc}.

(** X4.  A file without NUL in which no line begins with one of the seven
    commands is copied byte for byte: [ConvFile] returns 1, the output file
    has the contents of the input file, and the globals are as they
    were. *)
Theorem file_without_commands_is_copied g file :
  strchr file NUL = false ->
  (forall buf verb,
      In buf (fgets_all 1000 file) -> In verb CODES ->
      hd_error (strtok_all buf) <> Some verb) ->
  ConvFile g (Some file) true = mkEffect 1 g (Some file) None.
Proof.
  intros Hnul H. unfold ConvFile. rewrite conv_loop_unknown.
  - rewrite (concat_fgets_all _ _ Hnul). destruct g; reflexivity.
  - intros buf Hbuf. apply CheckCode_unknown.
    intros verb Hverb. apply (H buf verb Hbuf Hverb).
Qed.
End CopyFacts.

Lemma file_without_commands_is_copied_witness :
  ConvFile (libc := decimal_libc) (mkGlobals false true 0 1)
    (Some ("; start" ++ nl ++ "G28 X0  Y0" ++ nl ++ nl ++ "m104 S200"))
    true
  = mkEffect 1 (mkGlobals false true 0 1)
      (Some ("; start" ++ nl ++ "G28 X0  Y0" ++ nl ++ nl ++ "m104 S200"))
      None.
Proof.
  apply (file_without_commands_is_copied (libc := decimal_libc)).
  - reflexivity.
  - intros buf verb Hbuf Hverb. vm_compute in Hbuf. simpl in Hverb.
    decompose [or] Hbuf; decompose [or] Hverb; subst; try contradiction;
      vm_compute; discriminate.
Defined.


(** ** Speed commands *)

Lemma last_In {A} (l : list A) (d : A) : l <> [] -> In (last l d) l.
Proof.
  induction l as [|a l IH]; intros H; [contradiction H; reflexivity|].
  destruct l as [|b l]; [left; reflexivity|].
  right. apply IH. discriminate.
Qed.

Lemma speed_loop_last (NotUsed : string) (cnt : Z) (rest : list string) :
  ~ In NotUsed rest ->
  (forall Token, In Token rest -> starts_with "R" Token = true ->
                 (String.length Token <= 15)%nat) ->
  forall Speed,
  speed_loop NotUsed cnt rest Speed
  = inr (last (filter (starts_with "R") rest) Speed).
Proof.
  induction rest as [|t rest IH]; intros Hnot Hlen Speed; [reflexivity|].
  cbn [speed_loop filter].
  destruct (String.eqb_spec NotUsed t) as [E|_];
    [exfalso; apply Hnot; left; symmetry; exact E|].
  assert (Hnot' : ~ In NotUsed rest) by (intros H; apply Hnot; right; exact H).
  assert (Hlen' : forall Token, In Token rest -> starts_with "R" Token = true ->
                                (String.length Token <= 15)%nat)
    by (intros Token H; apply Hlen; right; exact H).
  destruct (starts_with "R" t) eqn:HR; [|apply IH; assumption].
  assert (Ht := Hlen t (or_introl eq_refl) HR). apply Nat.ltb_ge in Ht.
  rewrite Ht, IH by assumption. rewrite last_cons. reflexivity.
Qed.

Lemma last_speed_starts_with_R (rest : list string) :
  (exists Token, In Token rest /\ starts_with "R" Token = true) ->
  starts_with "R" (last_speed rest) = true.
Proof.
  intros (t & Hin & HR). unfold last_speed.
  assert (Hne : filter (starts_with "R") rest <> []).
  { intros E. assert (H : In t (filter (starts_with "R") rest))
      by (apply filter_In; split; assumption).
    rewrite E in H. destruct H. }
  apply (last_In _ EmptyString) in Hne. apply filter_In in Hne. apply Hne.
Qed.

Section SpeedFacts.
Context {libc : Libc}.


(** ** On/off commands *)


(** ** Moves *)



(** X8.  Once [FirstE] is positive, [ConvFile] never assigns it again,
    whatever the file holds and however the call ends. *)
Theorem positive_FirstE_is_kept g infile creatable :
  (0 <? FirstE g)%float = true ->
  FirstE (globals_after (ConvFile g infile creatable)) = FirstE g.
Proof.
  intros Hpos. unfold ConvFile.
  destruct infile as [file|]; [|reflexivity].
  destruct creatable; [|reflexivity].
  assert (H := conv_loop_keeps_positive_FirstE (RightUsed g) (Ratio g)
                 (fgets_all 1000 file) 0 (FirstE g) EmptyString Hpos).
  destruct (conv_loop _ _ _ _ _ _); cbn; exact H.
Qed.

(** ** The output grows line by line *)

Lemma conv_loop_grows rightUsed ratio lines :
  forall cnt firstE out,
  exists more,
    written (conv_loop rightUsed ratio lines cnt firstE out) = out ++ more.
Proof.
  induction lines as [|buf lines IH]; intros cnt firstE out.
  - exists EmptyString. cbn. rewrite append_nil_r. reflexivity.
  - cbn [conv_loop].
    destruct (conv_line rightUsed ratio (cnt + 1) firstE buf)
      as [text firstE'|e firstE'].
    + destruct (IH (cnt + 1)%Z firstE' (out ++ text)) as [more Hmore].
      exists (text ++ more). rewrite Hmore. apply append_assoc.
    + exists EmptyString. cbn. rewrite append_nil_r. reflexivity.
Qed.

(** X9.  The output of a file begins with the output of any of its first
    lines: what [ConvFile] has written for the lines read so far is never
    changed by the lines that follow, and after a failure no further line
    is read. *)
Theorem output_is_written_in_order rightUsed ratio l1 l2 cnt firstE out :
  match conv_loop rightUsed ratio l1 cnt firstE out with
  | Running cnt' firstE' out' =>
      exists more,
        written (conv_loop rightUsed ratio (l1 ++ l2) cnt firstE out)
        = out' ++ more
  | Halted e firstE' out' =>
      conv_loop rightUsed ratio (l1 ++ l2) cnt firstE out
      = Halted e firstE' out'
  end.
Proof.
  rewrite conv_loop_app.
  destruct (conv_loop rightUsed ratio l1 cnt firstE out); [|reflexivity].
  apply conv_loop_grows.
Qed.
End SpeedFacts.





Lemma positive_FirstE_is_kept_witness :
  FirstE (globals_after
            (ConvFile (libc := decimal_libc) (mkGlobals false true 5 1)
               (Some ("G1 X1 E8" ++ nl ++ "G1 E-1" ++ nl)) true))
  = 5%float.
Proof.
  apply (positive_FirstE_is_kept (libc := decimal_libc)
           (mkGlobals false true 5 1)).
  reflexivity.
Defined.

(** ** What the detector looks at *)

Lemma detect_verdict (lines : list string) :
  forall claimed,
  detect claimed lines =
  match (match claimed with Some Left => true | _ => false end
         || existsb (claims Left) lines),
        (match claimed with Some Right => true | _ => false end
         || existsb (claims Right) lines) with
  | true, true => Conflict
  | true, false => LeftActive
  | false, true => RightActive
  | false, false => NoneUsed
  end.
Proof.
  induction lines as [|buf lines IH]; intros claimed.
  - destruct claimed as [[|]|]; reflexivity.
  - cbn [detect existsb].
    assert (EL : claims Left buf
                 = match claim_of buf with Some Left => true | _ => false end)
      by (unfold claims; destruct (claim_of buf) as [[|]|]; reflexivity).
    assert (ER : claims Right buf
                 = match claim_of buf with Some Right => true | _ => false end)
      by (unfold claims; destruct (claim_of buf) as [[|]|]; reflexivity).
    rewrite EL, ER. clear EL ER.
    destruct (claim_of buf) as [[|]|], claimed as [[|]|];
      cbn [same_toolhead]; rewrite ?IH;
      generalize (existsb (claims Left) lines) as l;
      generalize (existsb (claims Right) lines) as r;
      intros [] []; reflexivity.
Qed.

Lemma check_line_keeps (g g' : globals) (buf : string) :
  check_line g buf = Some g' ->
  FirstE g' = FirstE g /\ Ratio g' = Ratio g /\
  (LeftUsed g = true -> LeftUsed g' = true) /\
  (RightUsed g = true -> RightUsed g' = true).
Proof.
  rewrite check_line_claim.
  destruct (claim_of buf) as [[|]|]; intros H.
  - destruct (RightUsed g) eqn:E; [discriminate H|]. injection H as <-.
    cbn. rewrite E. repeat split; congruence.
  - destruct (LeftUsed g) eqn:E; [discriminate H|]. injection H as <-.
    cbn. rewrite E. repeat split; congruence.
  - injection H as <-. repeat split; trivial.
Qed.

Lemma check_loop_keeps (lines : list string) :
  forall g,
  let g' := fst (check_loop g lines) in
  FirstE g' = FirstE g /\ Ratio g' = Ratio g /\
  (LeftUsed g = true -> LeftUsed g' = true) /\
  (RightUsed g = true -> RightUsed g' = true).
Proof.
  induction lines as [|buf lines IH]; intros g; cbn [check_loop].
  - repeat split; trivial.
  - destruct (check_line g buf) as [g1|] eqn:E; [|repeat split; trivial].
    destruct (check_line_keeps _ _ _ E) as (HF & HR & HL & HRt).
    destruct (IH g1) as (HF' & HR' & HL' & HRt').
    cbv zeta. repeat split; try congruence; auto.
Qed.

(** The outcome of the loop of [CheckFile], started with both flags clear,
    by the claims that occur in the file. *)
Lemma check_loop_verdict (g : globals) (lines : list string) :
  LeftUsed g = false -> RightUsed g = false ->
  match existsb (claims Left) lines, existsb (claims Right) lines with
  | true, true => snd (check_loop g lines) = false
  | true, false => check_loop g lines = (set_LeftUsed g, true)
  | false, true => check_loop g lines = (set_RightUsed g, true)
  | false, false => check_loop g lines = (g, true)
  end.
Proof.
  intros HL HR.
  destruct (check_loop_detect lines None g (conj HL HR)) as [g' H].
  assert (K := check_loop_keeps lines g). cbv zeta in K.
  rewrite (detect_verdict lines None) in H. cbn [orb] in H.
  destruct (existsb (claims Left) lines), (existsb (claims Right) lines).
  - rewrite H. reflexivity.
  - destruct H as (E & HL' & HR'). rewrite E in K |- *. cbn [fst] in K.
    destruct K as (KF & KR & _ & _). f_equal.
    destruct g, g'; cbn in *. subst. reflexivity.
  - destruct H as (E & HL' & HR'). rewrite E in K |- *. cbn [fst] in K.
    destruct K as (KF & KR & _ & _). f_equal.
    destruct g, g'; cbn in *. subst. reflexivity.
  - destruct H as (E & HL' & HR'). rewrite E in K |- *. cbn [fst] in K.
    destruct K as (KF & KR & _ & _). f_equal.
    destruct g, g'; cbn in *. subst. reflexivity.
Qed.



Lemma claim_of_none (buf verb : string) (rest : list string) :
  strtok_all buf = verb :: rest ->
  (verb <> "M101" /\ verb <> "M102" /\ verb <> "M104") \/
  ((verb = "M101" \/ verb = "M102") /\
   hd_error rest <> Some "T0" /\ hd_error rest <> Some "T1") \/
  (verb = "M104" /\ (last_S_temp rest <= 0)%Z) ->
  claim_of buf = None.
Proof.
  intros Htok H. unfold claim_of. rewrite Htok.
  destruct H as [(H1 & H2 & H4) | [(Hv & H0 & H1) | (Hv & Ht)]].
  - destruct (String.eqb_spec verb "M101"); [contradiction|].
    destruct (String.eqb_spec verb "M102"); [contradiction|].
    destruct (String.eqb_spec verb "M104"); [contradiction|]. reflexivity.
  - assert (E : (verb =? "M101") || (verb =? "M102") = true)
      by (destruct Hv as [-> | ->]; reflexivity).
    rewrite E. destruct rest as [|Token rest]; [reflexivity|].
    destruct (String.eqb_spec "T0" Token) as [<-|_];
      [contradiction H0; reflexivity|].
    destruct (String.eqb_spec "T1" Token) as [<-|_];
      [contradiction H1; reflexivity|]. reflexivity.
  - subst verb. change (("M104" =? "M101") || ("M104" =? "M102")) with false.
    change ("M104" =? "M104") with true. cbv iota.
    apply Z.ltb_ge in Ht. rewrite Ht, !andb_false_r. reflexivity.
Qed.



(** X12.  [CheckFile] only sets flags: it never clears one and never
    touches [FirstE] or [Ratio]; [ConvFile] changes no global but
    [FirstE]. *)
Theorem passes_keep_the_other_globals {libc : Libc} g infile creatable :
  (FirstE (snd (fst (CheckFile g infile))) = FirstE g /\
   Ratio (snd (fst (CheckFile g infile))) = Ratio g /\
   (LeftUsed g = true -> LeftUsed (snd (fst (CheckFile g infile))) = true) /\
   (RightUsed g = true -> RightUsed (snd (fst (CheckFile g infile))) = true))
  /\
  (LeftUsed (globals_after (ConvFile g infile creatable)) = LeftUsed g /\
   RightUsed (globals_after (ConvFile g infile creatable)) = RightUsed g /\
   Ratio (globals_after (ConvFile g infile creatable)) = Ratio g).
Proof.
  split.
  - unfold CheckFile. destruct infile as [file|]; [|repeat split; trivial].
    assert (K := check_loop_keeps (fgets_all 1024 file) g). cbv zeta in K.
    destruct (check_loop g (fgets_all 1024 file)) as [g' ok]. cbn [fst] in K.
    destruct ok; [|exact K].
    destruct (negb (RightUsed g') && negb (LeftUsed g')); exact K.
  - unfold ConvFile. destruct infile as [file|]; [|repeat split].
    destruct creatable; [|repeat split].
    destruct (conv_loop _ _ _ _ _ _); repeat split.
Qed.

(** ** [main]: when an output file exists, and the exit status *)

Lemma check_args_failure (g : globals) (args : cmdline) (e : failure) :
  check_args g args = inl e -> argument_failure e = true.
Proof.
  destruct args as [|D1 D2|]; cbn; intros H; try discriminate H.
  - destruct (too_big_small D1); [injection H as <-; reflexivity|].
    destruct (too_big_small D2); [injection H as <-; reflexivity|].
    discriminate H.
  - injection H as <-. reflexivity.
Qed.

Lemma speed_loop_failure NotUsed cnt rest :
  forall Speed e,
  speed_loop NotUsed cnt rest Speed = inl e -> argument_failure e = false.
Proof.
  induction rest as [|t rest IH]; intros Speed e H; [discriminate H|].
  cbn [speed_loop] in H. destruct (NotUsed =? t); [discriminate H|].
  destruct (starts_with "R" t); [|apply (IH _ _ H)].
  destruct (Nat.ltb 15 (String.length t)); [|apply (IH _ _ H)].
  injection H as <-. reflexivity.
Qed.

Section MainFacts.
Context {libc : Libc}.

Lemma g1_loop_failure rightUsed ratio cnt rest :
  forall buf firstE e firstE',
  g1_loop rightUsed ratio cnt rest buf firstE = Stopped e firstE' ->
  argument_failure e = false.
Proof.
  induction rest as [|t rest IH]; intros buf firstE e firstE' H;
    [discriminate H|].
  cbn [g1_loop] in H. destruct (is_E_param t); [|apply (IH _ _ _ _ H)].
  destruct (Nat.ltb 15 (String.length t)).
  - injection H as <- _. reflexivity.
  - destruct (conv_E_param rightUsed ratio firstE t). apply (IH _ _ _ _ H).
Qed.

Lemma conv_line_failure rightUsed ratio cnt firstE buf e firstE' :
  conv_line rightUsed ratio cnt firstE buf = Stopped e firstE' ->
  argument_failure e = false.
Proof.
  unfold conv_line.
  repeat match goal with
  | |- context [if ?b then _ else _] => destruct b; try discriminate
  end.
  - unfold conv_speed.
    destruct (speed_loop _ _ _ _) as [e'|Speed] eqn:E.
    + intros H. injection H as <- _. apply (speed_loop_failure _ _ _ _ _ E).
    + destruct (Nat.eqb (String.length Speed) 0); [|discriminate].
      intros H. injection H as <- _. reflexivity.
  - destruct (g1_loop _ _ _ _ _ _) as [text f|e' f] eqn:E; [discriminate|].
    intros H. injection H as <- _. apply (g1_loop_failure _ _ _ _ _ _ _ _ E).
Qed.

Lemma conv_loop_failure rightUsed ratio lines :
  forall cnt firstE out e firstE' out',
  conv_loop rightUsed ratio lines cnt firstE out = Halted e firstE' out' ->
  argument_failure e = false.
Proof.
  induction lines as [|buf lines IH]; intros cnt firstE out e firstE' out' H;
    [discriminate H|].
  cbn [conv_loop] in H.
  destruct (conv_line rightUsed ratio (cnt + 1) firstE buf) as [text f|e' f]
    eqn:E.
  - apply (IH _ _ _ _ _ _ H).
  - injection H as <- _ _. apply (conv_line_failure _ _ _ _ _ _ _ E).
Qed.

(** What [ConvFile] returns goes with what it prints. *)
Lemma ConvFile_status g infile creatable :
  match printed (ConvFile g infile creatable) with
  | None => returned (ConvFile g infile creatable) = 1%Z
  | Some e => returned (ConvFile g infile creatable) = 0%Z /\
              argument_failure e = false
  end.
Proof.
  unfold ConvFile. destruct infile as [file|]; [|split; reflexivity].
  destruct creatable; [|split; reflexivity].
  destruct (conv_loop _ _ _ _ _ _) as [c f o|e f o] eqn:E; cbn.
  - reflexivity.
  - split; [reflexivity|]. apply (conv_loop_failure _ _ _ _ _ _ _ _ _ E).
Qed.

(** X13.  [main] returns 0 when it printed no error and when the error is
    about the command line (the usage text, a diameter out of range); with
    every other error it returns -1.  So a status of 0 does not tell that a
    file was converted. *)
Theorem exit_status_of_main args infile creatable :
  returned (main args infile creatable) =
  match printed (main args infile creatable) with
  | None => 0%Z
  | Some e => if argument_failure e then 0%Z else (-1)%Z
  end.
Proof.
  unfold main. destruct (check_args cleared args) as [e|g] eqn:Eargs.
  - cbn. rewrite (check_args_failure _ _ _ Eargs). reflexivity.
  - unfold CheckFile. destruct infile as [file|]; [|reflexivity].
    destruct (check_loop g (fgets_all 1024 file)) as [g' ok].
    destruct ok; [|reflexivity].
    destruct (negb (RightUsed g') && negb (LeftUsed g')); [reflexivity|].
    cbv zeta.
    assert (H := ConvFile_status g' (Some file) creatable).
    destruct (printed (ConvFile g' (Some file) creatable)) as [e|] eqn:Ep.
    + destruct H as [Hr He]. rewrite Hr. cbn. rewrite ?Ep, He. reflexivity.
    + rewrite H. cbn. rewrite ?Ep. reflexivity.
Qed.

End MainFacts.


(** ** Files the program has written *)

Lemma fgets_from_at_line_start (n : nat) (pre s : string) :
  pre <> EmptyString -> at_line_start pre = true ->
  forall room cur,
  fgets_from n room cur (pre ++ s)
  = (fgets_from n room cur pre ++ fgets_from n (n - 1) EmptyString s)%list.
Proof.
  induction pre as [|c pre IH]; intros Hne Hstart room cur;
    [contradiction Hne; reflexivity|].
  destruct pre as [|d pre].
  - cbn [at_line_start] in Hstart. apply Ascii.eqb_eq in Hstart. subst c.
    cbn [append fgets_from]. rewrite Ascii.eqb_refl. reflexivity.
  - change (at_line_start (String c (String d pre)))
      with (at_line_start (String d pre)) in Hstart.
    assert (Hne' : String d pre <> EmptyString) by discriminate.
    change (String c (String d pre) ++ s) with (String c (String d pre ++ s)).
    cbn [fgets_from].
    destruct (Ascii.eqb c LF || Nat.leb room 1).
    + rewrite (IH Hne' Hstart). reflexivity.
    + apply (IH Hne' Hstart).
Qed.

Lemma fgets_all_at_line_start (n : nat) (pre s : string) :
  at_line_start pre = true ->
  fgets_all n (pre ++ s) = (fgets_all n pre ++ fgets_all n s)%list.
Proof.
  intros H. unfold fgets_all. destruct pre as [|c pre]; [reflexivity|].
  rewrite fgets_from_at_line_start by (discriminate || exact H).
  apply map_app.
Qed.

Section RejectFacts.
Context {libc : Libc}.

(** X15.  The program does not convert what it has written: a file that
    holds the two lines written for an [M101] or [M102] command, the
    command for [T1] and the command for [T0], ends the run with
    [ERROR_BOTH] and without output file, whatever lines come before and
    after. *)
Theorem file_with_both_on_commands_is_rejected args g pre post verb creatable :
  check_args cleared args = inr g ->
  at_line_start pre = true ->
  verb = "M101" \/ verb = "M102" ->
  exists g',
    main args
      (Some (pre ++ (verb ++ " T1" ++ nl) ++ (verb ++ " T0" ++ nl) ++ post))
      creatable
    = mkEffect (-1) g' None (Some BothExtruders).
Proof.
  intros Hargs Hpre Hverb.
  destruct (check_args_flags _ _ Hargs) as [HL HR]. cbn in HL, HR.
  set (file := pre ++ (verb ++ " T1" ++ nl) ++ (verb ++ " T0" ++ nl) ++ post).
  assert (Hlines : exists A B,
            fgets_all 1024 file
            = (A ++ (verb ++ " T1" ++ nl)%string
                 :: (verb ++ " T0" ++ nl)%string :: B)%list).
  { exists (fgets_all 1024 pre), (fgets_all 1024 post). unfold file.
    rewrite (fgets_all_at_line_start _ _ _ Hpre). f_equal.
    destruct Hverb as [-> | ->];
      rewrite (fgets_all_at_line_start 1024 (_ ++ " T1" ++ nl)) by reflexivity;
      rewrite (fgets_all_at_line_start 1024 (_ ++ " T0" ++ nl)) by reflexivity;
      reflexivity. }
  destruct Hlines as (A & B & Hlines).
  assert (EL : existsb (claims Left) (fgets_all 1024 file) = true).
  { apply existsb_exists. exists (verb ++ " T1" ++ nl). split.
    - rewrite Hlines. apply in_or_app. right. left. reflexivity.
    - destruct Hverb as [-> | ->]; reflexivity. }
  assert (ER : existsb (claims Right) (fgets_all 1024 file) = true).
  { apply existsb_exists. exists (verb ++ " T0" ++ nl). split.
    - rewrite Hlines. apply in_or_app. right. right. left. reflexivity.
    - destruct Hverb as [-> | ->]; reflexivity. }
  assert (V := check_loop_verdict g (fgets_all 1024 file) HL HR).
  rewrite EL, ER in V.
  unfold main. rewrite Hargs. unfold CheckFile.
  destruct (check_loop g (fgets_all 1024 file)) as [g' ok].
  cbn [snd] in V. subst ok. exists g'. reflexivity.
Qed.
End RejectFacts.

Lemma file_with_both_on_commands_is_rejected_witness :
  exists g',
    main (libc := decimal_libc) Files
      (Some ("G21" ++ nl ++ ("M101" ++ " T1" ++ nl) ++ ("M101" ++ " T0" ++ nl)
             ++ "G1 X1 A1 B1" ++ nl)) true
    = mkEffect (-1) g' None (Some BothExtruders).
Proof.
  apply (file_with_both_on_commands_is_rejected (libc := decimal_libc)
           Files cleared ("G21" ++ nl) ("G1 X1 A1 B1" ++ nl) "M101" true).
  - reflexivity.
  - reflexivity.
  - left. reflexivity.
Defined.

(** ** The diameters [main] accepts *)

Local Open Scope Z_scope.

Lemma SFcompare_refl (x : spec_float) :
  x <> S754_nan -> SFcompare x x = Some Eq.
Proof.
  destruct x as [s|s| |s m e]; intros H; cbn [SFcompare].
  - reflexivity.
  - destruct s; reflexivity.
  - contradiction H. reflexivity.
  - rewrite Z.compare_refl, Pos.compare_cont_refl. destruct s; reflexivity.
Qed.

Lemma is_nan_spec (D : float) : is_nan D = true <-> Prim2SF D = S754_nan.
Proof.
  unfold is_nan. rewrite eqb_spec. unfold SFeqb.
  destruct (Prim2SF D) as [s|s| |s m e] eqn:E;
    try (rewrite SFcompare_refl by discriminate; cbn;
         split; intros H; discriminate H).
  cbn. split; reflexivity.
Qed.

Lemma SFltb_false_leb (x y : spec_float) :
  x <> S754_nan -> y <> S754_nan -> SFltb x y = false -> SFleb y x = true.
Proof.
  unfold SFleb, SFltb, SFcompare. intros Hx Hy.
  destruct x as [sx|sx| |sx mx ex], y as [sy|sy| |sy my ey];
    try (contradiction Hx; reflexivity); try (contradiction Hy; reflexivity);
    try destruct sx; try destruct sy; try discriminate; try reflexivity;
    assert (Em := Pos.compare_cont_antisym mx my Eq); cbn [CompOpp] in Em;
    rewrite <- Em, (Z.compare_antisym ex ey);
    destruct (ex ?= ey), (Pos.compare_cont Eq mx my); cbn [CompOpp];
    try discriminate; reflexivity.
Qed.

Lemma nan_diameter_accepted (D : float) :
  is_nan D = true -> too_big_small D = false.
Proof.
  intros H. apply is_nan_spec in H. unfold too_big_small.
  rewrite !ltb_spec, H.
  change (Prim2SF max_diameter)
    with (S754_finite false 4953959590107546 (-51)).
  reflexivity.
Qed.

(** X16.  The test [D < 1.5 || D > 2.2] lets through the diameters from 1.5
    to 2.2 and one more value: a NaN, for which both comparisons are
    false. *)
Theorem accepted_diameters (D : float) :
  too_big_small D = false <->
  is_nan D = true \/
  ((min_diameter <=? D)%float = true /\ (D <=? max_diameter)%float = true).
Proof.
  split.
  - intros H. unfold too_big_small in H. apply orb_false_elim in H.
    destruct H as [H1 H2]. destruct (is_nan D) eqn:N; [left; reflexivity|].
    right.
    assert (HD : Prim2SF D <> S754_nan)
      by (intros E; apply is_nan_spec in E; congruence).
    rewrite ltb_spec in H1, H2. rewrite !leb_spec.
    split; apply SFltb_false_leb; trivial; discriminate.
  - intros [N | [H1 H2]].
    + apply nan_diameter_accepted. exact N.
    + apply accepted_diameter; assumption.
Qed.

Lemma nan_ratio_left (D1 D2 : float) :
  is_nan D1 = true -> is_nan (diameter_ratio D1 D2) = true.
Proof.
  intros H. apply is_nan_spec in H. apply is_nan_spec.
  unfold diameter_ratio. rewrite div_spec, mul_spec, div_spec, H.
  reflexivity.
Qed.

Lemma nan_ratio_right (D1 D2 : float) :
  is_nan D2 = true -> is_nan (diameter_ratio D1 D2) = true.
Proof.
  intros H. apply is_nan_spec in H. apply is_nan_spec.
  unfold diameter_ratio.
  rewrite div_spec, (mul_spec (D2 / 2)), (div_spec D2), H.
  change (SF64mul (SF64div S754_nan (Prim2SF 2)) (SF64div S754_nan (Prim2SF 2)))
    with S754_nan.
  destruct (Prim2SF (D1 / 2 * (D1 / 2))) as [s|s| |s m e]; reflexivity.
Qed.

Section DiameterFacts.
Context {libc : Libc}.

(** X17.  A diameter that [sscanf] read as NaN is accepted; the run then
    goes on with a [Ratio] that is a NaN, whatever the other diameter
    is. *)
Theorem nan_diameter_gives_nan_ratio D1 D2 infile creatable :
  (is_nan D1 = true /\ too_big_small D2 = false) \/
  (too_big_small D1 = false /\ is_nan D2 = true) ->
  check_args cleared (FilesDiameters D1 D2)
  = inr (set_Ratio cleared (diameter_ratio D1 D2)) /\
  is_nan (Ratio (globals_after
                   (main (FilesDiameters D1 D2) infile creatable))) = true.
Proof.
  intros H.
  assert (H1 : too_big_small D1 = false)
    by (destruct H as [[N _] | [A _]];
        [apply nan_diameter_accepted; exact N | exact A]).
  assert (H2 : too_big_small D2 = false)
    by (destruct H as [[_ A] | [_ N]];
        [exact A | apply nan_diameter_accepted; exact N]).
  assert (E : check_args cleared (FilesDiameters D1 D2)
              = inr (set_Ratio cleared (diameter_ratio D1 D2)))
    by (cbn [check_args]; rewrite H1, H2; reflexivity).
  split; [exact E|]. rewrite main_Ratio, E. cbn [Ratio set_Ratio].
  destruct H as [[N _] | [_ N]];
    [apply nan_ratio_left | apply nan_ratio_right]; exact N.
Qed.

(** X18.  With the same diameter given twice, a diameter from 1.5 to 2.2,
    [Ratio] is exactly 1.0, as it is without diameters. *)
Theorem ratio_of_equal_diameters D infile creatable :
  (min_diameter <=? D)%float = true -> (D <=? max_diameter)%float = true ->
  Ratio (globals_after (main (FilesDiameters D D) infile creatable))
  = 1%float.
Proof.
  intros Hlo Hhi. rewrite main_Ratio. cbn [check_args].
  rewrite (accepted_diameter D Hlo Hhi). cbn [Ratio set_Ratio].
  destruct (diameter_in_range D Hlo Hhi) as (m & e & P & He & Hm).
  destruct (square_normal m Hm) as (Ma & ka & HMa & Hka & Sa).
  assert (Ha : Prim2SF ((D / 2) * (D / 2))
               = S754_finite false Ma (e - 1 + (e - 1) + ka)).
  { rewrite mul_spec, div_spec, P, half_diameter by assumption.
    apply Sa. lia. }
  apply Prim2SF_inj. unfold diameter_ratio. rewrite div_spec, Ha.
  unfold SF64div. rewrite SFdiv_normal by (assumption || lia).
  rewrite (Z.mul_comm (Zpos Ma)), Z.div_mul, Z.mod_mul by lia.
  replace (e - 1 + (e - 1) + ka - (e - 1 + (e - 1) + ka) - 53) with (-53)
    by lia.
  replace (new_location (Zpos Ma) 0) with loc_Exact
    by (unfold new_location, new_location_even, new_location_odd;
        destruct (Z.even (Zpos Ma)); reflexivity).
  reflexivity.
Qed.
End DiameterFacts.

Lemma nan_diameter_gives_nan_ratio_witness :
  check_args cleared (FilesDiameters nan 1.75)
  = inr (set_Ratio cleared (diameter_ratio nan 1.75)) /\
  is_nan (Ratio (globals_after
                   (main (libc := decimal_libc) (FilesDiameters nan 1.75)
                      (Some ("M101 T0" ++ nl)%string) true))) = true.
Proof.
  apply (nan_diameter_gives_nan_ratio (libc := decimal_libc)).
  left. split; reflexivity.
Defined.

Lemma ratio_of_equal_diameters_witness :
  Ratio (globals_after
           (main (libc := decimal_libc) (FilesDiameters 1.75 1.75)
              (Some ("M101 T0" ++ nl)%string) true))
  = 1%float.
Proof.
  apply (ratio_of_equal_diameters (libc := decimal_libc)); reflexivity.
Defined.

Local Close Scope Z_scope.

(** ** The buffers are large enough *)

Lemma length_append (a b : string) :
  String.length (a ++ b) = String.length a + String.length b.
Proof. induction a as [|c a IH]; cbn; [reflexivity|]. rewrite IH. reflexivity. Qed.

Lemma join_tokens_length (toks : list string) :
  String.length (join_tokens toks) = joined_length toks.
Proof.
  induction toks as [|t toks IH]; [reflexivity|].
  cbn [join_tokens joined_length append String.length].
  rewrite length_append, IH. reflexivity.
Qed.

Lemma joined_length_app (a b : list string) :
  joined_length (a ++ b) = joined_length a + joined_length b.
Proof.
  induction a as [|t a IH]; [reflexivity|].
  cbn [app joined_length]. rewrite IH. lia.
Qed.

(** The tokens of a line, each with one separator, take no more room than
    the line and one character. *)
Lemma strtok_from_length (s : string) :
  forall cur,
  joined_length (strtok_from cur s)
  <= String.length cur + String.length s + 1.
Proof.
  induction s as [|c s IH]; intros cur; cbn [strtok_from String.length].
  - destruct cur; cbn; lia.
  - destruct (is_delim c).
    + rewrite joined_length_app. specialize (IH EmptyString). cbn in IH.
      destruct cur; cbn; lia.
    + specialize (IH (cur ++ String c EmptyString)).
      rewrite length_append in IH. cbn in IH. lia.
Qed.

Lemma c_str_length (s : string) : String.length (c_str s) <= String.length s.
Proof.
  induction s as [|c s IH]; cbn [c_str]; [lia|].
  destruct (Ascii.eqb c NUL); cbn; lia.
Qed.

Lemma fgets_from_length (n : nat) (s : string) :
  forall room cur buf,
  1 <= room -> String.length cur + room <= n - 1 ->
  In buf (fgets_from n room cur s) -> String.length buf <= n - 1.
Proof.
  induction s as [|c s IH]; intros room cur buf Hroom Hcur Hin;
    cbn [fgets_from] in Hin.
  - destruct cur; [destruct Hin|]. destruct Hin as [<-|[]]. lia.
  - assert (Hlen : String.length (cur ++ String c EmptyString)
                   = S (String.length cur))
      by (rewrite length_append; cbn; lia).
    destruct (Ascii.eqb c LF || Nat.leb room 1) eqn:E.
    + destruct Hin as [<-|Hin]; [lia|].
      apply (IH (n - 1) EmptyString buf); [lia | cbn; lia | exact Hin].
    + apply orb_false_elim in E. destruct E as [_ E].
      apply Nat.leb_gt in E.
      apply (IH (room - 1) (cur ++ String c EmptyString) buf);
        [lia | lia | exact Hin].
Qed.

(** What [fgets(buf, n, in)] leaves in [buf] has at most [n-1]
    characters. *)
Lemma fgets_all_length (n : nat) (file buf : string) :
  2 <= n -> In buf (fgets_all n file) -> String.length buf <= n - 1.
Proof.
  intros Hn Hin. unfold fgets_all in Hin. apply in_map_iff in Hin.
  destruct Hin as (chunk & <- & Hin).
  apply (fgets_from_length n file (n - 1) EmptyString) in Hin;
    [|lia|cbn; lia].
  pose proof (c_str_length chunk). lia.
Qed.

Lemma speed_loop_result NotUsed cnt rest :
  forall Speed0 Speed,
  speed_loop NotUsed cnt rest Speed0 = inr Speed ->
  Speed = Speed0 \/
  (In Speed rest /\ starts_with "R" Speed = true /\
   String.length Speed <= 15).
Proof.
  induction rest as [|t rest IH]; intros Speed0 Speed H; cbn [speed_loop] in H.
  - injection H as <-. left. reflexivity.
  - destruct (NotUsed =? t); [injection H as <-; left; reflexivity|].
    destruct (starts_with "R" t) eqn:HR.
    + destruct (Nat.ltb 15 (String.length t)) eqn:Hlen; [discriminate H|].
      apply Nat.ltb_ge in Hlen.
      destruct (IH _ _ H) as [-> | (Hin & HS & HL)].
      * right. split; [left; reflexivity | split; assumption].
      * right. split; [right; exact Hin | split; assumption].
    + destruct (IH _ _ H) as [-> | (Hin & HS & HL)].
      * left. reflexivity.
      * right. split; [right; exact Hin | split; assumption].
Qed.

Section BufferFacts.
Context {libc : Libc}.

(** X19.  Whenever a speed command is written, the speed on both lines is
    one of its own speed parameters and has at most 15 characters: only
    such a token is ever copied into [Speed[16]]. *)
Theorem written_speed_fits_its_buffer rightUsed ratio cnt firstE buf rest text
    firstE' :
  strtok_all buf = "M108" :: rest ->
  conv_line rightUsed ratio cnt firstE buf = Wrote text firstE' ->
  exists Speed,
    In Speed rest /\ starts_with "R" Speed = true /\
    String.length Speed <= 15 /\
    text = "M108 " ++ Speed ++ " T1" ++ nl ++ "M108 " ++ Speed ++ " T0" ++ nl.
Proof.
  intros Htok H. rewrite (conv_line_M108 _ _ _ _ _ _ Htok) in H.
  unfold conv_speed in H.
  destruct (speed_loop (NotUsed_of rightUsed) cnt rest EmptyString)
    as [e|Speed] eqn:E; [discriminate H|].
  destruct (speed_loop_result _ _ _ _ _ E) as [-> | (Hin & HR & HL)];
    [discriminate H|].
  destruct (Nat.eqb (String.length Speed) 0); [discriminate H|].
  injection H as <- _. exists Speed. repeat split; assumption.
Qed.

(** X20.  A move without extrusion parameter is written in no more
    characters than the line read and one: the line assembled in
    [buf[1002]] for a line that [fgets(buf,1000,in)] delivered has at most
    1000 characters. *)
Theorem move_without_extrusion_fits_its_buffer rightUsed ratio cnt firstE file
    buf rest :
  In buf (fgets_all 1000 file) ->
  strtok_all buf = "G1" :: rest ->
  (forall Token, In Token rest -> is_E_param Token = false) ->
  exists text,
    conv_line rightUsed ratio cnt firstE buf = Wrote text firstE /\
    String.length text <= String.length buf + 1 /\
    String.length text <= 1000.
Proof.
  intros Hin Htok HE. exists ("G1" ++ join_tokens rest ++ nl).
  assert (Hlen : String.length ("G1" ++ join_tokens rest ++ nl)
                 <= String.length buf + 1).
  { pose proof (strtok_from_length buf EmptyString) as H.
    fold (strtok_all buf) in H. rewrite Htok in H.
    cbn [joined_length String.length] in H.
    rewrite !length_append, join_tokens_length. cbn [String.length nl].
    cbn in H |- *. lia. }
  split; [|split; [exact Hlen|]].
  - rewrite (conv_line_G1 _ _ _ _ _ _ Htok), (g1_loop_copies _ _ _ _ HE).
    rewrite append_assoc. reflexivity.
  - pose proof (fgets_all_length 1000 file buf ltac:(lia) Hin). lia.
Qed.
End BufferFacts.

Lemma written_speed_fits_its_buffer_witness :
  exists Speed,
    In Speed ["R2.0"; "T1"; "R9"] /\ starts_with "R" Speed = true /\
    String.length Speed <= 15 /\
    ("M108 R2.0 T1" ++ nl ++ "M108 R2.0 T0" ++ nl)%string
    = ("M108 " ++ Speed ++ " T1" ++ nl ++ "M108 " ++ Speed ++ " T0" ++ nl)%string.
Proof.
  apply (written_speed_fits_its_buffer (libc := decimal_libc) true 1 1 0
           ("M108 R2.0 T1 R9" ++ nl)%string ["R2.0"; "T1"; "R9"]
           ("M108 R2.0 T1" ++ nl ++ "M108 R2.0 T0" ++ nl)%string 0).
  - vm_compute. reflexivity.
  - vm_compute. reflexivity.
Defined.

Lemma move_without_extrusion_fits_its_buffer_witness :
  exists text,
    conv_line (libc := decimal_libc) true 1 2 0 ("G1  X1  Y2" ++ nl)%string
    = Wrote text 0 /\
    String.length text <= String.length ("G1  X1  Y2" ++ nl)%string + 1 /\
    String.length text <= 1000.
Proof.
  apply (move_without_extrusion_fits_its_buffer (libc := decimal_libc)
           true 1 2 0 ("M101 T0" ++ nl ++ "G1  X1  Y2" ++ nl)%string
           ("G1  X1  Y2" ++ nl)%string ["X1"; "Y2"]).
  - vm_compute. right. left. reflexivity.
  - vm_compute. reflexivity.
  - intros Token H. simpl in H.
    decompose [or] H; subst; try contradiction; reflexivity.
Defined.

(** ** A temperature written is read back *)

Lemma scan_digits_acc (d : Decimal.uint) :
  forall acc,
  scan_digits (NilEmpty.string_of_uint d) (Zpos acc) true
  = Some (Zpos (Pos.of_uint_acc d acc)).
Proof.
  induction d; intros acc; cbn [NilEmpty.string_of_uint Pos.of_uint_acc];
    [reflexivity|..];
    cbn [scan_digits];
    match goal with
    | |- context [digit_of ?c] =>
        let v := eval vm_compute in (digit_of c) in
        change (digit_of c) with v
    end;
    cbv iota; rewrite <- IHd; f_equal; lia.
Qed.

Lemma scan_digits_zero (d : Decimal.uint) :
  scan_digits (NilEmpty.string_of_uint d) 0%Z true
  = Some (Z.of_N (Pos.of_uint d)).
Proof.
  induction d; cbn [NilEmpty.string_of_uint Pos.of_uint]; [reflexivity|..];
    cbn [scan_digits];
    match goal with
    | |- context [digit_of ?c] =>
        let v := eval vm_compute in (digit_of c) in
        change (digit_of c) with v
    end;
    cbv iota; [exact IHd|..]; cbn [Z.mul Z.add Z.of_N];
    apply scan_digits_acc.
Qed.

Lemma scan_digits_first (d : Decimal.uint) :
  d <> Decimal.Nil ->
  scan_digits (NilEmpty.string_of_uint d) 0%Z false
  = Some (Z.of_N (Pos.of_uint d)).
Proof.
  intros H. rewrite <- scan_digits_zero.
  destruct d; [contradiction H; reflexivity|..]; reflexivity.
Qed.

Lemma scan_d_uint (d : Decimal.uint) :
  d <> Decimal.Nil ->
  scan_d (NilEmpty.string_of_uint d) = Some (Z.of_N (Pos.of_uint d)).
Proof.
  intros H. rewrite <- (scan_digits_first d H).
  destruct d; [contradiction H; reflexivity|..]; reflexivity.
Qed.

Lemma to_uint_not_Nil (p : positive) : Pos.to_uint p <> Decimal.Nil.
Proof.
  intros E. assert (H := DecimalPos.Unsigned.of_to p). rewrite E in H.
  discriminate H.
Qed.

(** [%d] reads back what [%d] printed. *)
Lemma scan_d_print_d (z : Z) : scan_d (print_d z) = Some z.
Proof.
  unfold print_d. destruct z as [|p|p]; [reflexivity| |].
  - cbn [Z.to_int NilZero.string_of_int]. unfold NilZero.string_of_uint.
    assert (Hn := to_uint_not_Nil p).
    destruct (Pos.to_uint p) eqn:E; [contradiction Hn; reflexivity|..];
      rewrite <- E in *; rewrite scan_d_uint by exact Hn;
      rewrite DecimalPos.Unsigned.of_to; reflexivity.
  - cbn [Z.to_int NilZero.string_of_int]. unfold NilZero.string_of_uint.
    assert (Hn := to_uint_not_Nil p).
    assert (E : scan_d (String "-" (NilEmpty.string_of_uint (Pos.to_uint p)))
                = option_map Z.opp
                    (scan_digits (NilEmpty.string_of_uint (Pos.to_uint p))
                       0%Z false)) by reflexivity.
    destruct (Pos.to_uint p) eqn:Ep; [contradiction Hn; reflexivity|..];
      rewrite <- Ep in *; rewrite E, scan_digits_first by exact Hn;
      rewrite DecimalPos.Unsigned.of_to; reflexivity.
Qed.

Lemma string_of_uint_no_delim (d : Decimal.uint) :
  has_delim (NilEmpty.string_of_uint d) = false.
Proof. induction d; cbn [NilEmpty.string_of_uint has_delim]; trivial. Qed.

Lemma print_d_no_delim (z : Z) : has_delim (print_d z) = false.
Proof.
  unfold print_d. destruct z as [|p|p]; [reflexivity| |];
    cbn [Z.to_int NilZero.string_of_int]; unfold NilZero.string_of_uint;
    destruct (Pos.to_uint p) eqn:E; try reflexivity;
    rewrite <- E; cbn [has_delim]; apply string_of_uint_no_delim.
Qed.

Lemma temp_line_tokens (Temp : Z) (T : string) :
  has_delim T = false -> nonempty T = true ->
  strtok_all ("M104 S" ++ print_d Temp ++ " " ++ T ++ nl)
  = ["M104"; "S" ++ print_d Temp; T].
Proof.
  intros HT HTn.
  change ("M104 S" ++ print_d Temp ++ " " ++ T ++ nl)
    with ("M104" ++ String " " (String "S" (print_d Temp ++ " " ++ T ++ nl))).
  unfold strtok_all. rewrite (strtok_from_append_token "M104") by reflexivity.
  assert (E : String " " (String "S" (print_d Temp ++ " " ++ T ++ nl))
              = join_tokens ["S" ++ print_d Temp; T] ++ nl).
  { cbn [join_tokens append]. rewrite !append_assoc. cbn [append].
    rewrite append_nil_r. reflexivity. }
  rewrite E, strtok_from_join; [reflexivity|].
  repeat constructor; trivial.
  cbn [append has_delim]. apply print_d_no_delim.
Qed.

Section TempRoundTrip.
Context {libc : Libc}.

(** X21.  Each of the two lines written for a temperature command is
    converted into the same two lines again, whichever toolhead is in use:
    the temperature printed with [%d] is read back by [S%d] as it was. *)
Theorem written_temp_lines_convert_to_themselves rightUsed ratio cnt firstE
    Temp :
  conv_line rightUsed ratio cnt firstE
    ("M104 S" ++ print_d Temp ++ " T1" ++ nl)
  = Wrote ("M104 S" ++ print_d Temp ++ " T1" ++ nl
           ++ "M104 S" ++ print_d Temp ++ " T0" ++ nl) firstE /\
  conv_line rightUsed ratio cnt firstE
    ("M104 S" ++ print_d Temp ++ " T0" ++ nl)
  = Wrote ("M104 S" ++ print_d Temp ++ " T1" ++ nl
           ++ "M104 S" ++ print_d Temp ++ " T0" ++ nl) firstE.
Proof.
  assert (HS : forall NotUsed T,
             In NotUsed ["T0"; "T1"] -> In T ["T0"; "T1"] ->
             temp_loop NotUsed ["S" ++ print_d Temp; T] 0 = Temp).
  { intros NotUsed T HN HT. cbn [temp_loop].
    replace (NotUsed =? "S" ++ print_d Temp) with false
      by (cbn in HN; decompose [or] HN; subst; try contradiction; reflexivity).
    cbn [starts_with append]. rewrite Ascii.eqb_refl.
    cbn [sscanf_S_d]. rewrite scan_d_print_d.
    cbn in HT. decompose [or] HT; subst; try contradiction;
      destruct (NotUsed =? _); reflexivity. }
  assert (HN : In (NotUsed_of rightUsed) ["T0"; "T1"])
    by (destruct rightUsed; cbn; tauto).
  split.
  - rewrite (conv_line_M104 _ _ _ _ _ ["S" ++ print_d Temp; "T1"])
      by (apply (temp_line_tokens Temp "T1"); reflexivity).
    rewrite (HS _ _ HN) by (cbn; tauto). reflexivity.
  - rewrite (conv_line_M104 _ _ _ _ _ ["S" ++ print_d Temp; "T0"])
      by (apply (temp_line_tokens Temp "T0"); reflexivity).
    rewrite (HS _ _ HN) by (cbn; tauto). reflexivity.
Qed.
End TempRoundTrip.

(** ** Lines that are no command *)

Section UnclassifiedFacts.
Context {libc : Libc}.

End UnclassifiedFacts.


